(** * The account views of the user API
      (openedx/core/djangoapps/user_api/accounts/views.py)

    The module is a controller layer: every handler extracts its
    parameters from the request, calls the account services inside an
    optional [transaction.atomic()] block and maps what comes back (a
    value or an exception) to a [Response].  The embedding follows that
    shape: handlers are computations in a state-and-exception monad over
    the world the services act on, with [try]/[except] and
    [transaction.atomic()] as combinators, and the services the module
    imports are the fields of an interface. *)

From Stdlib Require Import ZArith Lia Ascii String.
From stdpp Require Import base gmap strings list.

Set Warnings "-register-all".
#[local] Open Scope Z_scope.

(** ** Python strings: [str.strip(chars)] and [str.split(sep)]

    Both are used by [AccountViewSet.list] with the one-character
    argument [","].  A comma is a single byte in UTF-8 and no byte of a
    longer sequence equals it, so working on bytes is exact. *)

Module PyStr.

(** [s.lstrip(c)]: drop the leading run of [c]. *)
Fixpoint lstrip (c : ascii) (s : string) : string :=
  match s with
  | EmptyString => EmptyString
  | String a s' => if Ascii.eqb a c then lstrip c s' else s
  end.

(** [s.rstrip(c)]: drop the trailing run of [c]. *)
Fixpoint rstrip (c : ascii) (s : string) : string :=
  match s with
  | EmptyString => EmptyString
  | String a s' =>
      match rstrip c s' with
      | EmptyString => if Ascii.eqb a c then EmptyString else String a EmptyString
      | r => String a r
      end
  end.

(** [s.strip(c)] *)
Definition strip (c : ascii) (s : string) : string := rstrip c (lstrip c s).

(** [s.split(c)] with an explicit separator: one entry per separator
    plus one, empty entries kept, [''.split(',') == ['']]. *)
Fixpoint split (c : ascii) (s : string) : list string :=
  match s with
  | EmptyString => [EmptyString]
  | String a s' =>
      if Ascii.eqb a c then EmptyString :: split c s'
      else match split c s' with
           | h :: t => String a h :: t
           | [] => [String a EmptyString]
           end
  end.

(** No occurrence of [c] in [s]. *)
Fixpoint free_of (c : ascii) (s : string) : bool :=
  match s with
  | EmptyString => true
  | String a s' => negb (Ascii.eqb a c) && free_of c s'
  end.

(** The separator as a string, for [sep.join(l)]. *)
Definition sep (c : ascii) : string := String c EmptyString.

(** [n] copies of [c]. *)
Fixpoint run (c : ascii) (n : nat) : string :=
  match n with
  | O => EmptyString
  | S n' => String c (run c n')
  end.

End PyStr.

(** ** Python values that travel through the views *)

(** JSON-like data: request bodies, field maps, response bodies. *)
Inductive value : Type :=
| VNone
| VBool (b : bool)
| VInt (z : Z)
| VStr (s : string)
| VList (l : list value)
| VDict (d : list (string * value)).

(** Truth value of an object, as [if not username:] takes it. *)
Definition truthy (v : value) : bool :=
  match v with
  | VNone => false
  | VBool b => b
  | VInt z => negb (z =? 0)
  | VStr s => negb (String.eqb s "")
  | VList l => match l with [] => false | _ => true end
  | VDict d => match d with [] => false | _ => true end
  end.

(** [request.data], what the parser made of the body: a JSON object
    (or a form, or no body at all) is a dict; a JSON array, string,
    number, boolean or null is that value, which has neither [get]
    nor string keys.  (A number stands here by an integer; no view
    looks inside a body that is not a dict.) *)
Inductive parsed_body : Type :=
| Dict (d : gmap string value)
| JList (l : list value)
| JStr (s : string)
| JNumber (z : Z)
| JBool (b : bool)
| JNull.

(** [type(data).__name__], as error messages spell it (CPython 3). *)
Definition type_name (data : parsed_body) : string :=
  match data with
  | Dict _ => "dict"
  | JList _ => "list"
  | JStr _ => "str"
  | JNumber _ => "int"
  | JBool _ => "bool"
  | JNull => "NoneType"
  end.

(** One account's field map, as the settings service serializes it. *)
Definition field_map := list (string * value).

(** The second argument the views hand to [get_account_settings]:
    [None], a string (only the empty one reaches the call, see
    [AccountViewSet.list]) or a list of usernames. *)
Inductive usernames_arg : Type :=
| UNone
| UStr (s : string)
| UList (l : list string).

(** ** Exceptions *)

(** The classes the views name in an [except] clause or raise
    themselves; every other subclass of [Exception] is
    [OtherException] with its class name.  [User_DoesNotExist] is
    [user_model.DoesNotExist].  None of the classes named here is a
    subclass of another, and all of them are subclasses of
    [Exception], so that [except Exception] catches every [exn]. *)
Inductive exn_class : Type :=
| UserNotFound
| UserNotAuthorized
| AccountValidationError (field_errors : value)
| AccountUpdateError (developer_message user_message : value)
| User_DoesNotExist
| KeyError
| IndexError
| AttributeError
| TypeError
| OtherException (name : string).

(** An exception object: its class (with the attributes the views
    read) and [text_type(exc)]. *)
Record exn : Type := Exn { exn_class_of : exn_class; text_type : string }.

Inductive result (A : Type) : Type :=
| Ok (a : A)
| Raise (e : exn).
Arguments Ok {A} a.
Arguments Raise {A} e.

(** ** The world and the monad of handlers *)

Section Monad.
Context {DB Ext : Type}.

(** [db] is the relational store, the part [transaction.atomic()]
    controls; [ext] is everything a service can touch outside it
    (mail sent, calls to third-party mailing providers). *)
Record World : Type := mkWorld { db : DB; ext : Ext }.

Definition M (A : Type) : Type := World -> result A * World.

Definition ret {A} (a : A) : M A := fun w => (Ok a, w).

Definition bind {A B} (m : M A) (k : A -> M B) : M B :=
  fun w =>
    match m w with
    | (Ok a, w') => k a w'
    | (Raise e, w') => (Raise e, w')
    end.

Definition raise {A} (e : exn) : M A := fun w => (Raise e, w).

(** A read of the store: no effect, may raise. *)
Definition query {A} (q : DB -> result A) : M A := fun w => (q (db w), w).

(** A call that computes without touching the world, may raise. *)
Definition lift {A} (r : result A) : M A := fun w => (r, w).

(** [try: body  except ...:]  The clauses are a function from the
    exception to the handler of the first clause that matches, [None]
    when no clause matches and the exception goes on. *)
Definition try_except {A} (body : M A) (clauses : exn -> option (M A)) : M A :=
  fun w =>
    match body w with
    | (Ok a, w') => (Ok a, w')
    | (Raise e, w') =>
        match clauses e with
        | Some handler => handler w'
        | None => (Raise e, w')
        end
    end.

(** [with transaction.atomic(): body]  A body that raises has its
    writes to the store undone and the exception goes on; what it did
    outside the store stays done. *)
Definition atomic {A} (body : M A) : M A :=
  fun w =>
    match body w with
    | (Ok a, w') => (Ok a, w')
    | (Raise e, w') => (Raise e, {| db := db w; ext := ext w' |})
    end.

(** [for x in xs: body(x)] *)
Fixpoint for_each {A} (xs : list A) (body : A -> M unit) : M unit :=
  match xs with
  | [] => ret tt
  | x :: xs' => bind (body x) (fun _ => for_each xs' body)
  end.

End Monad.
Arguments World : clear implicits.
Arguments M : clear implicits.

Declare Scope py_scope.
Delimit Scope py_scope with py.
Notation "x <- m ;; k" := (bind m (fun x => k))
  (at level 100, m at next level, right associativity) : py_scope.
Notation "m ;;; k" := (bind m (fun _ => k))
  (at level 100, right associativity) : py_scope.
#[local] Open Scope py_scope.

(** ** Requests, responses, model objects *)

(** [django.contrib.auth] user objects, with the attributes the views
    read or assign. *)
Module User.
Record t : Type := mk {
  id : Z;
  username : string;
  email : string;
  password : string;
  is_staff : bool
}.
End User.

(** [UserOrgTag] rows: a per-(user, org) key/value preference. *)
Module UserOrgTag.
Record t : Type := mk {
  user_id : Z;
  org : string;
  key : string;
  value : string
}.
End UserOrgTag.

(** A request as the views see it.  [GET] (alias [query_params]) maps
    a key to what [QueryDict.get] returns for it; [data] is the parsed
    body. *)
Module Request.
Record t : Type := mk {
  user : User.t;
  GET : gmap string string;
  content_type : string;
  data : parsed_body
}.
End Request.

Module Response.
Record t : Type := mk { data : value; status_code : Z }.
End Response.

(** [Response(data)], [Response(status=...)], [Response(data, status=...)] *)
Definition Response (data : value) (status : Z) : Response.t :=
  Response.mk data status.

Definition HTTP_200_OK : Z := 200.
Definition HTTP_204_NO_CONTENT : Z := 204.
Definition HTTP_400_BAD_REQUEST : Z := 400.
Definition HTTP_403_FORBIDDEN : Z := 403.
Definition HTTP_404_NOT_FOUND : Z := 404.
Definition HTTP_415_UNSUPPORTED_MEDIA_TYPE : Z := 415.
Definition HTTP_500_INTERNAL_SERVER_ERROR : Z := 500.

(** What a [try] statement leaves behind: an [except] clause that
    returned a response, or the value of the body, with which the
    statements after the [try] go on. *)
Inductive flow (A : Type) : Type :=
| Return (response : Response.t)
| Fallthrough (a : A).
Arguments Return {A} response.
Arguments Fallthrough {A} a.

(** [d[k]] on a dict. *)
Definition getitem {DB Ext} (d : gmap string value) (k : string) : M DB Ext value :=
  match d !! k with
  | Some v => ret v
  | None => raise (Exn KeyError ("'" +:+ k +:+ "'"))
  end.

(** The text of the [TypeError] of [data[k]] for a string [k] on a
    body that is not a dict, in the interpreter's words (CPython 3);
    no view reads it. *)
Definition subscript_error_text (data : parsed_body) : string :=
  match data with
  | JList _ => "list indices must be integers or slices, not str"
  | JStr _ => "string indices must be integers"
  | _ => "'" +:+ type_name data +:+ "' object is not subscriptable"
  end.

(** [request.data[k]]: the item of a dict; on any other body,
    subscripting with a string is a [TypeError]. *)
Definition data_getitem {DB Ext} (data : parsed_body) (k : string) : M DB Ext value :=
  match data with
  | Dict d => getitem d k
  | _ => raise (Exn TypeError (subscript_error_text data))
  end.

(** [request.data.get(k, default)]: only a dict has [get]; on any
    other body the attribute lookup is an [AttributeError]. *)
Definition data_get {DB Ext} (data : parsed_body) (k : string) (default : value)
  : M DB Ext value :=
  match data with
  | Dict d => ret (from_option id default (d !! k))
  | _ => raise (Exn AttributeError
                  ("'" +:+ type_name data +:+ "' object has no attribute 'get'"))
  end.

(** [xs[0]] on a list. *)
Definition first {DB Ext A} (xs : list A) : M DB Ext A :=
  match xs with
  | x :: _ => ret x
  | [] => raise (Exn IndexError "list index out of range")
  end.

(** A request parser class, by the media type it accepts. *)
Record Parser : Type := { media_type : string }.

(** Modelled from the spec: [MergePatchParser] of
    openedx.core.lib.api.parsers is imported by the views and not part
    of this file; it is the parser of "the merge-patch content type". *)
Definition MergePatchParser : Parser :=
  {| media_type := "application/merge-patch+json" |}.

(** Modelled from the spec: the framework's choice of a parser among
    a view's [parser_classes] by the content type of the request. *)
Definition select_parser (content_type : string) (parsers : list Parser)
  : option Parser :=
  find (fun p => String.eqb (media_type p) content_type) parsers.

(** ** The services the module imports

    [get_account_settings], [update_account_settings] (.api),
    [update_email_opt_in] (preferences.api),
    [get_potentially_retired_user_by_username_and_hash],
    [get_retired_email_by_email] (student.models), the
    [USER_RETIRE_MAILINGS] signal and the model managers are called by
    the views and defined elsewhere.  Lookups read the store; the
    others are commands on the world.  Every one of them may raise. *)
Class Collaborators (DB Ext : Type) : Type := {
  (** [get_account_settings(request, usernames, view=view)] *)
  get_account_settings :
    Request.t -> usernames_arg -> option string -> DB -> result (list field_map);
  (** [update_account_settings(requesting_user, update, username=username)] *)
  update_account_settings :
    User.t -> parsed_body -> string -> M DB Ext unit;
  (** [User.objects.get(username=username)] *)
  User_objects_get : value -> DB -> result User.t;
  (** [user.set_unusable_password()], on the object in memory *)
  User_set_unusable_password : User.t -> User.t;
  (** [user.save()] *)
  User_save : User.t -> M DB Ext unit;
  (** [get_potentially_retired_user_by_username_and_hash(username, retired_username)] *)
  get_potentially_retired_user_by_username_and_hash :
    string -> value -> DB -> result User.t;
  (** [UserOrgTag.objects.filter(user=user, key=key)], evaluated *)
  UserOrgTag_objects_filter : User.t -> string -> DB -> result (list UserOrgTag.t);
  (** [update_email_opt_in(user, org, opt_in)] *)
  update_email_opt_in : User.t -> string -> bool -> M DB Ext unit;
  (** [USER_RETIRE_MAILINGS.send(sender=..., user=user)] *)
  USER_RETIRE_MAILINGS_send : User.t -> M DB Ext unit;
  (** [UserSocialAuth.objects.filter(user_id=user_id).delete()] *)
  UserSocialAuth_objects_filter_delete : Z -> M DB Ext unit;
  (** [get_retired_email_by_email(email)] *)
  get_retired_email_by_email : string -> result string
}.

(** ** The views *)

Section Helpers.
Context {DB Ext : Type} `{!Collaborators DB Ext}.

(** [_set_unusable_password(user)]; the object is changed in place,
    so the changed object is what the caller holds afterwards. *)
Definition _set_unusable_password (user : User.t) : M DB Ext User.t :=
  let user := User_set_unusable_password user in
  User_save user ;;;
  ret user.

(** [status.HTTP_403_FORBIDDEN if request.user.is_staff else
    status.HTTP_404_NOT_FOUND] *)
Definition forbidden_or_not_found (request : Request.t) : Z :=
  if User.is_staff (Request.user request)
  then HTTP_403_FORBIDDEN else HTTP_404_NOT_FOUND.

End Helpers.

Module AccountViewSet.
Section Handlers.
Context {DB Ext : Type} `{!Collaborators DB Ext}.

Definition parser_classes : list Parser := [MergePatchParser].

(** GET /api/user/v1/me *)
Definition get (request : Request.t) : M DB Ext Response.t :=
  ret (Response
         (VDict [("username", VStr (User.username (Request.user request)))])
         HTTP_200_OK).

(** Lines 189-190: [if usernames: usernames =
    usernames.strip(',').split(',')], on the result of
    [request.GET.get('username')]. *)
Definition parse_usernames (usernames : string) : list string :=
  PyStr.split "," (PyStr.strip "," usernames).

Definition list_usernames (usernames : option string) : usernames_arg :=
  match usernames with
  | None => UNone
  | Some s => if String.eqb s "" then UStr s else UList (parse_usernames s)
  end.

(** The body of the [try] of [list]. *)
Definition list_try (request : Request.t) (usernames : option string)
  : M DB Ext (list field_map) :=
  let usernames := list_usernames usernames in
  query (get_account_settings request usernames (Request.GET request !! "view")).

(** GET /api/user/v1/accounts?username={username1,username2} *)
Definition list (request : Request.t) : M DB Ext Response.t :=
  let usernames := Request.GET request !! "username" in
  r <- try_except
         (account_settings <- list_try request usernames ;;
          ret (Fallthrough account_settings))
         (fun exc =>
            match exn_class_of exc with
            | UserNotFound =>
                Some (ret (Return (Response VNone (forbidden_or_not_found request))))
            | _ => None
            end) ;;
  match r with
  | Return response => ret response
  | Fallthrough account_settings =>
      ret (Response (VList (VDict <$> account_settings)) HTTP_200_OK)
  end.

(** GET /api/user/v1/accounts/{username}/ *)
Definition retrieve (request : Request.t) (username : string) : M DB Ext Response.t :=
  r <- try_except
         (account_settings <-
            query (get_account_settings request (UList [username])
                     (Request.GET request !! "view")) ;;
          ret (Fallthrough account_settings))
         (fun exc =>
            match exn_class_of exc with
            | UserNotFound =>
                Some (ret (Return (Response VNone (forbidden_or_not_found request))))
            | _ => None
            end) ;;
  match r with
  | Return response => ret response
  | Fallthrough account_settings =>
      settings <- first account_settings ;;
      ret (Response (VDict settings) HTTP_200_OK)
  end.

(** The body of [with transaction.atomic():] in [partial_update]. *)
Definition partial_update_transaction (request : Request.t) (username : string)
  : M DB Ext field_map :=
  update_account_settings (Request.user request) (Request.data request) username ;;;
  account_settings <- query (get_account_settings request (UList [username]) None) ;;
  first account_settings.

(** PATCH /api/user/v1/accounts/{username}/ *)
Definition partial_update (request : Request.t) (username : string)
  : M DB Ext Response.t :=
  r <- try_except
         (account_settings <- atomic (partial_update_transaction request username) ;;
          ret (Fallthrough account_settings))
         (fun exc =>
            match exn_class_of exc with
            | UserNotAuthorized =>
                Some (ret (Return (Response VNone (forbidden_or_not_found request))))
            | UserNotFound =>
                Some (ret (Return (Response VNone HTTP_404_NOT_FOUND)))
            | AccountValidationError field_errors =>
                Some (ret (Return (Response (VDict [("field_errors", field_errors)])
                                     HTTP_400_BAD_REQUEST)))
            | AccountUpdateError developer_message user_message =>
                Some (ret (Return (Response
                                     (VDict [("developer_message", developer_message);
                                             ("user_message", user_message)])
                                     HTTP_400_BAD_REQUEST)))
            | _ => None
            end) ;;
  match r with
  | Return response => ret response
  | Fallthrough account_settings =>
      ret (Response (VDict account_settings) HTTP_200_OK)
  end.

(** Modelled from the spec: the dispatch of a PATCH request, which
    the framework does outside this file.  The spec has a request
    whose content type no parser of [parser_classes] accepts fail
    with "unsupported media type" before the operation is reached. *)
Definition dispatch_PATCH (request : Request.t) (username : string)
  : M DB Ext Response.t :=
  match select_parser (Request.content_type request) parser_classes with
  | None => ret (Response VNone HTTP_415_UNSUPPORTED_MEDIA_TYPE)
  | Some _ => partial_update request username
  end.

End Handlers.
End AccountViewSet.

Module AccountDeactivationView.
Section Handlers.
Context {DB Ext : Type} `{!Collaborators DB Ext}.

(** POST /api/user/v1/accounts/{username}/deactivate/ *)
Definition post (request : Request.t) (username : string) : M DB Ext Response.t :=
  user <- query (User_objects_get (VStr username)) ;;
  _set_unusable_password user ;;;
  account_settings <- query (get_account_settings request (UList [username]) None) ;;
  settings <- first account_settings ;;
  ret (Response (VDict settings) HTTP_200_OK).

End Handlers.
End AccountDeactivationView.

Module AccountRetireMailingsView.
Section Handlers.
Context {DB Ext : Type} `{!Collaborators DB Ext}.

(** The body of [with transaction.atomic():]: the org opt-outs, over
    the tags the query finds when the loop starts, then the signal. *)
Definition post_transaction (user : User.t) : M DB Ext unit :=
  preferences <- query (UserOrgTag_objects_filter user "email-optin") ;;
  for_each preferences
    (fun preference => update_email_opt_in user (UserOrgTag.org preference) false) ;;;
  USER_RETIRE_MAILINGS_send user.

(** The body of the [try]. *)
Definition post_try (username : string) (retired_username : value) : M DB Ext unit :=
  user <- query (get_potentially_retired_user_by_username_and_hash
                   username retired_username) ;;
  atomic (post_transaction user).

(** POST /api/user/v1/accounts/{username}/retire_mailings/
    ([get_user_model()] only names the class of the [except] clause.) *)
Definition post (request : Request.t) (username : string) : M DB Ext Response.t :=
  retired_username <- data_getitem (Request.data request) "retired_username" ;;
  r <- try_except
         (post_try username retired_username ;;;
          ret (Fallthrough tt))
         (fun exc =>
            match exn_class_of exc with
            | User_DoesNotExist =>
                Some (ret (Return (Response VNone HTTP_404_NOT_FOUND)))
            | _ =>
                Some (ret (Return (Response (VStr (text_type exc))
                                     HTTP_500_INTERNAL_SERVER_ERROR)))
            end) ;;
  match r with
  | Return response => ret response
  | Fallthrough _ => ret (Response VNone HTTP_204_NO_CONTENT)
  end.

End Handlers.
End AccountRetireMailingsView.

Module DeactivateLogoutView.
Section Handlers.
Context {DB Ext : Type} `{!Collaborators DB Ext}.

(** The body of [with transaction.atomic():]. *)
Definition post_transaction (user : User.t) : M DB Ext unit :=
  (* 1. Unlink LMS social auth accounts *)
  UserSocialAuth_objects_filter_delete (User.id user) ;;;
  (* 2. Change LMS password & email *)
  retired_email <- lift (get_retired_email_by_email (User.email user)) ;;
  let user := User.mk (User.id user) (User.username user) retired_email
                (User.password user) (User.is_staff user) in
  User_save user ;;;
  _set_unusable_password user ;;;
  ret tt.

(** The body of the [try]. *)
Definition post_try (username : value) : M DB Ext unit :=
  (* make sure the specified user exists *)
  user <- query (User_objects_get username) ;;
  atomic (post_transaction user).

(** POST /api/user/v1/accounts/deactivate_logout *)
Definition post (request : Request.t) : M DB Ext Response.t :=
  username <- data_get (Request.data request) "user" VNone ;;
  if negb (truthy username) then
    ret (Response (VDict [("message", VStr "The user was not specified.")])
           HTTP_404_NOT_FOUND)
  else
    r <- try_except
           (post_try username ;;;
            ret (Fallthrough tt))
           (fun exc =>
              match exn_class_of exc with
              | User_DoesNotExist =>
                  Some (ret (Return (Response VNone HTTP_404_NOT_FOUND)))
              | _ =>
                  Some (ret (Return (Response (VStr (text_type exc))
                                       HTTP_500_INTERNAL_SERVER_ERROR)))
              end) ;;
    match r with
    | Return response => ret response
    | Fallthrough _ => ret (Response VNone HTTP_204_NO_CONTENT)
    end.

End Handlers.
End DeactivateLogoutView.

(** ** A small account store

    The services behind the views, over a store of three tables, for
    running the views on concrete requests. *)

Module Store.

Record tables : Type := mkdb {
  users : list User.t;
  goals : gmap string value;               (* username to the [goals] field *)
  org_tags : list UserOrgTag.t;
  social_auth : list (Z * string)          (* (user id, provider) *)
}.

Record effects : Type := mkext {
  outbox : list string;                    (* notifications delivered *)
  provider_up : bool                       (* the mailing provider answers *)
}.

Definition find_user (name : string) (d : tables) : option User.t :=
  List.find (fun u => String.eqb (User.username u) name) (users d).

Definition does_not_exist : exn :=
  Exn User_DoesNotExist "User matching query does not exist.".

(** Modelled from the spec: the visibility rule of the Account
    Settings Service, which is outside this file.  The owner and
    privileged callers see every field unless the shared view is
    asked for; others see the shared fields. *)
Definition visible_fields (requester : User.t) (view : option string)
    (u : User.t) (d : tables) : field_map :=
  let full :=
    (User.is_staff requester
     || String.eqb (User.username requester) (User.username u))
    && negb (bool_decide (view = Some "shared")) in
  if full then
    [("username", VStr (User.username u));
     ("email", VStr (User.email u));
     ("goals", default VNone (goals d !! User.username u))]
  else
    [("username", VStr (User.username u))].

Fixpoint settings_of (requester : User.t) (view : option string)
    (names : list string) (d : tables) : result (list field_map) :=
  match names with
  | [] => Ok []
  | name :: names' =>
      match find_user name d with
      | None => Raise (Exn UserNotFound "")
      | Some u =>
          match settings_of requester view names' d with
          | Ok rest => Ok (visible_fields requester view u d :: rest)
          | Raise e => Raise e
          end
      end
  end.

(** Modelled from the spec: the Account Settings Service
    ([get_account_settings] of .api, outside this file): given the
    requesting identity and a list of usernames it returns each
    target's visible fields, one map per username in the order of
    the list, and fails with [UserNotFound] if a named account does
    not exist; without usernames it answers for the caller. *)
Definition get_account_settings_ (request : Request.t) (usernames : usernames_arg)
    (view : option string) (d : tables) : result (list field_map) :=
  let requester := Request.user request in
  match usernames with
  | UList (name :: names) => settings_of requester view (name :: names) d
  | _ => settings_of requester view [User.username requester] d
  end.

(** The fields a patch may set, and the values they take. *)
Definition valid_field (k : string) (v : value) : bool :=
  if String.eqb k "goals"
  then match v with VNone | VStr _ => true | _ => false end
  else false.

Definition rejected_fields (update : gmap string value) : list (string * value) :=
  List.filter (fun kv => negb (valid_field (fst kv) (snd kv))) (map_to_list update).

Definition field_error (kv : string * value) : string * value :=
  (fst kv, VDict [("developer_message", VStr "Value is not valid for this field.");
                  ("user_message", VStr "This value is invalid.")]).

(** Modelled from the spec: the Account Update Service
    ([update_account_settings] of .api, outside this file): only the
    owner may modify the record ([UserNotAuthorized], before any
    validation), the target must exist ([UserNotFound]), a rejected
    field fails the update with [AccountValidationError] naming
    every rejected field, and validated fields are persisted.  A
    patch document is a set of field replacements; of a body that is
    not an object the spec says nothing, and here the service raises
    on it. *)
Definition update_account_settings_ (requesting_user : User.t)
    (patch : parsed_body) (username : string) : M tables effects unit :=
  fun w =>
    if negb (String.eqb (User.username requesting_user) username) then
      (Raise (Exn UserNotAuthorized ""), w)
    else
      match find_user username (db w), patch with
      | None, _ => (Raise (Exn UserNotFound ""), w)
      | Some _, Dict update =>
          match rejected_fields update with
          | [] =>
              let d := db w in
              let d' := mkdb (users d)
                          (match update !! "goals" with
                           | Some v => <[username := v]> (goals d)
                           | None => goals d
                           end)
                          (org_tags d) (social_auth d) in
              (Ok tt, mkWorld d' (ext w))
          | bad =>
              (Raise (Exn (AccountValidationError (VDict (field_error <$> bad))) ""), w)
          end
      | Some _, _ => (Raise (Exn TypeError "the patch is not an object"), w)
      end.

(** Modelled from the spec: [User.objects.get(username=...)], the
    lookup of the user-record store by its unique username. *)
Definition User_objects_get_ (username : value) (d : tables) : result User.t :=
  match username with
  | VStr name =>
      match find_user name d with
      | Some u => Ok u
      | None => Raise does_not_exist
      end
  | _ => Raise does_not_exist
  end.

(** Modelled from the spec: the credential set to the permanently
    unusable state. *)
Definition User_set_unusable_password_ (u : User.t) : User.t :=
  User.mk (User.id u) (User.username u) (User.email u) "!" (User.is_staff u).

(** Modelled from the spec: [user.save()], the row of that user
    replaced by the object. *)
Definition User_save_ (u : User.t) : M tables effects unit :=
  fun w =>
    let d := db w in
    let others := List.filter (fun v => negb (User.id v =? User.id u)) (users d) in
    (Ok tt, mkWorld (mkdb (u :: others) (goals d) (org_tags d) (social_auth d)) (ext w)).

(** Modelled from the spec: the lookup of a user whose username may
    already have been anonymized, by the current or the retired
    name. *)
Definition get_potentially_retired_user_ (username : string)
    (retired_username : value) (d : tables) : result User.t :=
  match find_user username d with
  | Some u => Ok u
  | None => User_objects_get_ retired_username d
  end.

(** Modelled from the spec: the org-scoped tags of an account under
    one key. *)
Definition UserOrgTag_objects_filter_ (u : User.t) (key : string) (d : tables)
  : result (list UserOrgTag.t) :=
  Ok (List.filter
        (fun t => (UserOrgTag.user_id t =? User.id u)
                  && String.eqb (UserOrgTag.key t) key)
        (org_tags d)).

Definition set_tag (uid : Z) (org : string) (v : string) (t : UserOrgTag.t)
  : UserOrgTag.t :=
  if (UserOrgTag.user_id t =? uid) && String.eqb (UserOrgTag.org t) org
     && String.eqb (UserOrgTag.key t) "email-optin"
  then UserOrgTag.mk uid org "email-optin" v
  else t.

(** Modelled from the spec: the standard preference-update path that
    sets the email opt-in of an account for one org. *)
Definition update_email_opt_in_ (u : User.t) (org : string) (opt_in : bool)
  : M tables effects unit :=
  fun w =>
    let d := db w in
    let v := if opt_in then "True" else "False" in
    (Ok tt,
     mkWorld (mkdb (users d) (goals d)
                (set_tag (User.id u) org v <$> org_tags d) (social_auth d))
       (ext w)).

(** Modelled from the spec: the retirement-mailing notification,
    delivered synchronously to its subscriber; a subscriber whose
    provider does not answer raises. *)
Definition USER_RETIRE_MAILINGS_send_ (u : User.t) : M tables effects unit :=
  fun w =>
    if provider_up (ext w) then
      (Ok tt, mkWorld (db w)
                (mkext (User.username u :: outbox (ext w)) (provider_up (ext w))))
    else
      (Raise (Exn (OtherException "ConnectionError") "mailing provider unreachable"), w).

(** Modelled from the spec: the removal of every social-login
    linkage of an account. *)
Definition UserSocialAuth_delete_ (uid : Z) : M tables effects unit :=
  fun w =>
    let d := db w in
    (Ok tt,
     mkWorld (mkdb (users d) (goals d) (org_tags d)
                (List.filter (fun l => negb (fst l =? uid)) (social_auth d)))
       (ext w)).

(** Modelled from the spec: the retired placeholder derived
    deterministically from the original address. *)
Definition get_retired_email_by_email_ (email : string) : result string :=
  Ok ("retired__" +:+ email).

#[global] Instance services : Collaborators tables effects := {|
  get_account_settings := get_account_settings_;
  update_account_settings := update_account_settings_;
  User_objects_get := User_objects_get_;
  User_set_unusable_password := User_set_unusable_password_;
  User_save := User_save_;
  get_potentially_retired_user_by_username_and_hash := get_potentially_retired_user_;
  UserOrgTag_objects_filter := UserOrgTag_objects_filter_;
  update_email_opt_in := update_email_opt_in_;
  USER_RETIRE_MAILINGS_send := USER_RETIRE_MAILINGS_send_;
  UserSocialAuth_objects_filter_delete := UserSocialAuth_delete_;
  get_retired_email_by_email := get_retired_email_by_email_
|}.

(** *** Sample data *)

Definition alice : User.t := User.mk 1 "alice" "alice@example.com" "pbkdf2$a" false.
Definition bob : User.t := User.mk 2 "bob" "bob@example.com" "pbkdf2$b" false.
Definition staff : User.t := User.mk 3 "staff" "staff@example.com" "pbkdf2$s" true.

Definition d0 : tables :=
  mkdb [alice; bob; staff]
    {[ "alice" := VStr "learn" ]}
    [UserOrgTag.mk 1 "edX" "email-optin" "True";
     UserOrgTag.mk 1 "MITx" "email-optin" "True";
     UserOrgTag.mk 2 "edX" "email-optin" "True"]
    [(1, "google-oauth2")].

(** The tags of [d0] once alice's opt-outs are written. *)
Definition alice_opted_out : list UserOrgTag.t :=
  [UserOrgTag.mk 1 "edX" "email-optin" "False";
   UserOrgTag.mk 1 "MITx" "email-optin" "False";
   UserOrgTag.mk 2 "edX" "email-optin" "True"].

Definition w0 : World tables effects := mkWorld d0 (mkext [] true).
(** The same store with the mailing provider down. *)
Definition w_down : World tables effects := mkWorld d0 (mkext [] false).

Definition merge_patch : string := "application/merge-patch+json".

Definition request_of (u : User.t) (query : list (string * string))
    (body : list (string * value)) : Request.t :=
  Request.mk u (list_to_map query) merge_patch (Dict (list_to_map body)).

End Store.

(** ** Services that fail

    The services of [Store] with one of them replaced, for running the
    views on the paths where a service fails or finds nothing. *)

Module Doubles.

Definition with_settings
    (f : Request.t -> usernames_arg -> option string -> Store.tables
         -> result (list field_map))
  : Collaborators Store.tables Store.effects := {|
  get_account_settings := f;
  update_account_settings := Store.update_account_settings_;
  User_objects_get := Store.User_objects_get_;
  User_set_unusable_password := Store.User_set_unusable_password_;
  User_save := Store.User_save_;
  get_potentially_retired_user_by_username_and_hash := Store.get_potentially_retired_user_;
  UserOrgTag_objects_filter := Store.UserOrgTag_objects_filter_;
  update_email_opt_in := Store.update_email_opt_in_;
  USER_RETIRE_MAILINGS_send := Store.USER_RETIRE_MAILINGS_send_;
  UserSocialAuth_objects_filter_delete := Store.UserSocialAuth_delete_;
  get_retired_email_by_email := Store.get_retired_email_by_email_
|}.

Definition with_save (f : User.t -> M Store.tables Store.effects unit)
  : Collaborators Store.tables Store.effects := {|
  get_account_settings := Store.get_account_settings_;
  update_account_settings := Store.update_account_settings_;
  User_objects_get := Store.User_objects_get_;
  User_set_unusable_password := Store.User_set_unusable_password_;
  User_save := f;
  get_potentially_retired_user_by_username_and_hash := Store.get_potentially_retired_user_;
  UserOrgTag_objects_filter := Store.UserOrgTag_objects_filter_;
  update_email_opt_in := Store.update_email_opt_in_;
  USER_RETIRE_MAILINGS_send := Store.USER_RETIRE_MAILINGS_send_;
  UserSocialAuth_objects_filter_delete := Store.UserSocialAuth_delete_;
  get_retired_email_by_email := Store.get_retired_email_by_email_
|}.

Definition with_opt_in
    (f : User.t -> string -> bool -> M Store.tables Store.effects unit)
  : Collaborators Store.tables Store.effects := {|
  get_account_settings := Store.get_account_settings_;
  update_account_settings := Store.update_account_settings_;
  User_objects_get := Store.User_objects_get_;
  User_set_unusable_password := Store.User_set_unusable_password_;
  User_save := Store.User_save_;
  get_potentially_retired_user_by_username_and_hash := Store.get_potentially_retired_user_;
  UserOrgTag_objects_filter := Store.UserOrgTag_objects_filter_;
  update_email_opt_in := f;
  USER_RETIRE_MAILINGS_send := Store.USER_RETIRE_MAILINGS_send_;
  UserSocialAuth_objects_filter_delete := Store.UserSocialAuth_delete_;
  get_retired_email_by_email := Store.get_retired_email_by_email_
|}.

Definition with_send (f : User.t -> M Store.tables Store.effects unit)
  : Collaborators Store.tables Store.effects := {|
  get_account_settings := Store.get_account_settings_;
  update_account_settings := Store.update_account_settings_;
  User_objects_get := Store.User_objects_get_;
  User_set_unusable_password := Store.User_set_unusable_password_;
  User_save := Store.User_save_;
  get_potentially_retired_user_by_username_and_hash := Store.get_potentially_retired_user_;
  UserOrgTag_objects_filter := Store.UserOrgTag_objects_filter_;
  update_email_opt_in := Store.update_email_opt_in_;
  USER_RETIRE_MAILINGS_send := f;
  UserSocialAuth_objects_filter_delete := Store.UserSocialAuth_delete_;
  get_retired_email_by_email := Store.get_retired_email_by_email_
|}.

(** A subscriber of the retirement signal that looks up a user of its
    own records and does not find one. *)
Definition send_user_gone (u : User.t) : M Store.tables Store.effects unit :=
  raise Store.does_not_exist.

(** A settings service that finds no row. *)
Definition no_settings (request : Request.t) (usernames : usernames_arg)
    (view : option string) (d : Store.tables) : result (list field_map) :=
  Ok [].

(** A settings service that cannot reach its store. *)
Definition settings_down (request : Request.t) (usernames : usernames_arg)
    (view : option string) (d : Store.tables) : result (list field_map) :=
  Raise (Exn (OtherException "OperationalError") "settings unavailable").

(** A [save] that the store refuses. *)
Definition save_refused (u : User.t) : M Store.tables Store.effects unit :=
  raise (Exn (OtherException "IntegrityError") "save refused").

(** An opt-in update that fails for one org. *)
Definition opt_in_fails_for (failing : string) (u : User.t) (org : string)
    (opt_in : bool) : M Store.tables Store.effects unit :=
  if String.eqb org failing
  then raise (Exn UserNotFound "no profile")
  else Store.update_email_opt_in_ u org opt_in.

End Doubles.

(** * Properties *)

(** ** [strip] and [split] *)

Module PyStrFacts.
Import PyStr.
Section WithSeparator.
Variable c : ascii.

Lemma lstrip_run n s : lstrip c (run c n +:+ s) = lstrip c s.
Proof.
  induction n as [|n IH]; simpl; [reflexivity|].
  now rewrite Ascii.eqb_refl.
Qed.

Lemma rstrip_run n : rstrip c (run c n) = "".
Proof.
  induction n as [|n IH]; simpl; [reflexivity|].
  now rewrite IH, Ascii.eqb_refl.
Qed.

Lemma rstrip_app_run s n : rstrip c (s +:+ run c n) = rstrip c s.
Proof.
  induction s as [|a s IH]; simpl.
  - apply rstrip_run.
  - now rewrite IH.
Qed.

Lemma rstrip_free s : free_of c s = true -> rstrip c s = s.
Proof.
  induction s as [|a s IH]; simpl; [reflexivity|].
  intros [Ha Hs]%andb_prop. rewrite (IH Hs).
  destruct s; [|reflexivity].
  now destruct (Ascii.eqb a c).
Qed.

(** A string that does not end in the separator keeps its end when
    something is put in front of it. *)
Lemma rstrip_app x s :
  s <> "" -> rstrip c s = s -> rstrip c (x +:+ s) = x +:+ s.
Proof.
  intros Hne Hs. induction x as [|a x IH]; [exact Hs|].
  change (String a x +:+ s) with (String a (x +:+ s)).
  cbn [rstrip]. rewrite IH. destruct (x +:+ s) eqn:E; [|reflexivity].
  destruct x; [exfalso; apply Hne; exact E | discriminate].
Qed.

Lemma split_free s : free_of c s = true -> split c s = [s].
Proof.
  induction s as [|a s IH]; simpl; [reflexivity|].
  intros [Ha Hs]%andb_prop. apply negb_true_iff in Ha.
  now rewrite Ha, (IH Hs).
Qed.

Lemma split_app_sep x s :
  free_of c x = true -> split c (x +:+ String c s) = x :: split c s.
Proof.
  induction x as [|a x IH]; simpl.
  - intros _. now rewrite Ascii.eqb_refl.
  - intros [Ha Hx]%andb_prop. apply negb_true_iff in Ha.
    now rewrite Ha, (IH Hx).
Qed.

Lemma concat_cons x y l :
  String.concat (sep c) (x :: y :: l) = x +:+ String c (String.concat (sep c) (y :: l)).
Proof. reflexivity. Qed.

(** Splitting undoes joining, empty entries included. *)
Lemma split_concat l :
  l <> [] -> Forall (fun s => free_of c s = true) l ->
  split c (String.concat (sep c) l) = l.
Proof.
  induction l as [|x [|y l] IH]; intros Hne Hall.
  - congruence.
  - apply split_free. now inversion Hall.
  - rewrite concat_cons. inversion Hall as [|? ? Hx Hrest]; subst.
    rewrite (split_app_sep _ _ Hx). f_equal. now apply IH.
Qed.

Lemma concat_last_nonempty l :
  List.last l "" <> "" -> String.concat (sep c) l <> "".
Proof.
  destruct l as [|x [|y l]]; simpl; [congruence | congruence |].
  intros _. destruct x; discriminate.
Qed.

Lemma rstrip_concat l :
  Forall (fun s => free_of c s = true) l -> List.last l "" <> "" ->
  rstrip c (String.concat (sep c) l) = String.concat (sep c) l.
Proof.
  induction l as [|x [|y l] IH]; intros Hall Hlast.
  - reflexivity.
  - apply rstrip_free. now inversion Hall.
  - rewrite concat_cons. inversion Hall as [|? ? Hx Hrest]; subst.
    apply rstrip_app; [discriminate|].
    cbn [rstrip]. change (List.last (x :: y :: l) "") with (List.last (y :: l) "") in Hlast.
    rewrite (IH Hrest Hlast).
    pose proof (concat_last_nonempty _ Hlast) as Hne.
    destruct (String.concat (sep c) (y :: l)); [congruence | reflexivity].
Qed.

Lemma lstrip_concat l s :
  Forall (fun s => free_of c s = true) l -> hd "" l <> "" ->
  lstrip c (String.concat (sep c) l +:+ s) = String.concat (sep c) l +:+ s.
Proof.
  destruct l as [|x l]; simpl; [congruence|].
  intros Hall Hhd. inversion Hall as [|? ? Hx _]; subst.
  destruct x as [|a x]; [congruence|].
  simpl in Hx. apply andb_prop in Hx as [Ha _]. apply negb_true_iff in Ha.
  destruct l; simpl; now rewrite Ha.
Qed.

(** [strip] then [split] on a joined list between two runs of the
    separator. *)
Lemma split_strip_concat l m n :
  Forall (fun s => free_of c s = true) l ->
  hd "" l <> "" -> List.last l "" <> "" ->
  split c (strip c (run c m +:+ String.concat (sep c) l +:+ run c n)) = l.
Proof.
  intros Hall Hhd Hlast. unfold strip.
  rewrite lstrip_run, (lstrip_concat _ _ Hall Hhd), rstrip_app_run,
    (rstrip_concat _ Hall Hlast).
  apply split_concat; [|exact Hall].
  intros ->. now apply Hhd.
Qed.

End WithSeparator.
End PyStrFacts.

(** ** The handlers *)

(** Unfold the monad down to matches on what the services return. *)
Ltac unfold_monad :=
  unfold data_get, data_getitem in *;
  unfold first, getitem in *;
  unfold bind, try_except, atomic, query, lift, ret, raise in *.

(** Split on the scrutinee of the first match in the goal. *)
Ltac case_step :=
  match goal with
  | |- context [match ?x with _ => _ end] => destruct x eqn:?
  end.

(** The same in a hypothesis. *)
Ltac case_step_in H :=
  match type of H with
  | context [match ?x with _ => _ end] => destruct x eqn:?
  end.

Section Views.
Context {DB Ext : Type} `{!Collaborators DB Ext}.
Implicit Types (request : Request.t) (w : World DB Ext) (e : exn).

(** A transaction that raises leaves the store as it found it. *)
Lemma atomic_rollback {A} (body : M DB Ext A) w e w1 :
  body w = (Raise e, w1) ->
  atomic body w = (Raise e, {| db := db w; ext := ext w1 |}).
Proof. intros H. unfold atomic. now rewrite H. Qed.

(** A transaction that returns is its body. *)
Lemma atomic_commit {A} (body : M DB Ext A) w a w1 :
  body w = (Ok a, w1) -> atomic body w = (Ok a, w1).
Proof. intros H. unfold atomic. now rewrite H. Qed.

(** [retrieve] only reads the store. *)
Lemma retrieve_reads_store request username w :
  exists r, forall w', db w' = db w ->
    AccountViewSet.retrieve request username w' = (r, w').
Proof.
  unfold AccountViewSet.retrieve. unfold_monad.
  destruct (get_account_settings request (UList [username])
              (Request.GET request !! "view") (db w)) as [l|e] eqn:E.
  - destruct l as [|m l].
    + eexists. intros w' Hw. rewrite Hw, E. reflexivity.
    + eexists. intros w' Hw. rewrite Hw, E. reflexivity.
  - destruct (exn_class_of e) eqn:Ec;
      eexists; intros w' Hw; rewrite Hw, E, Ec; reflexivity.
Qed.

Lemma retrieve_same_store request username w w' :
  db w' = db w ->
  fst (AccountViewSet.retrieve request username w')
  = fst (AccountViewSet.retrieve request username w).
Proof.
  intros Hw. destruct (retrieve_reads_store request username w) as [r Hr].
  now rewrite (Hr w' Hw), (Hr w eq_refl).
Qed.

(** The transaction of retire-mailings raises when an opt-out step
    does. *)
Lemma retire_transaction_raises_at_opt_out (user : User.t) w preferences e w1 :
  UserOrgTag_objects_filter user "email-optin" (db w) = Ok preferences ->
  for_each preferences
    (fun preference => update_email_opt_in user (UserOrgTag.org preference) false) w
  = (Raise e, w1) ->
  AccountRetireMailingsView.post_transaction user w = (Raise e, w1).
Proof.
  intros Hfilter Hloop. unfold AccountRetireMailingsView.post_transaction.
  unfold bind at 1. unfold query. rewrite Hfilter.
  unfold bind at 1. now rewrite Hloop.
Qed.

(** It raises when the opt-outs are written and the dispatch of the
    notification raises. *)
Lemma retire_transaction_raises_at_dispatch (user : User.t) w preferences w1 e w2 :
  UserOrgTag_objects_filter user "email-optin" (db w) = Ok preferences ->
  for_each preferences
    (fun preference => update_email_opt_in user (UserOrgTag.org preference) false) w
  = (Ok tt, w1) ->
  USER_RETIRE_MAILINGS_send user w1 = (Raise e, w2) ->
  AccountRetireMailingsView.post_transaction user w = (Raise e, w2).
Proof.
  intros Hfilter Hloop Hsend. unfold AccountRetireMailingsView.post_transaction.
  unfold bind at 1. unfold query. rewrite Hfilter.
  unfold bind at 1. now rewrite Hloop.
Qed.

(** A username without a comma is the one entry of its own list. *)
Lemma parse_single_username (username : string) :
  PyStr.free_of "," username = true ->
  AccountViewSet.parse_usernames username = [username].
Proof.
  intros Hfree. unfold AccountViewSet.parse_usernames, PyStr.strip.
  assert (PyStr.lstrip "," username = username) as ->.
  { destruct username as [|a s]; [reflexivity|].
    simpl in Hfree. apply andb_prop in Hfree as [Ha _].
    apply negb_true_iff in Ha. simpl. now rewrite Ha. }
  rewrite (PyStrFacts.rstrip_free _ _ Hfree).
  now apply PyStrFacts.split_free.
Qed.

End Views.

(** ** List retrieval: the [username] parameter *)

(** C3, against the claim: the parameter ["alice,,bob,"] does not
    resolve to the two usernames alice and bob.  The empty entry
    between the two commas stays in the list handed to the settings
    service, and blanks around an entry stay too. *)
Lemma list_usernames_keeps_empty_entry :
  AccountViewSet.list_usernames (Some "alice,,bob,") = UList ["alice"; ""; "bob"]
  /\ AccountViewSet.list_usernames (Some "alice,,bob,") <> UList ["alice"; "bob"]
  /\ AccountViewSet.list_usernames (Some " alice , bob") = UList [" alice "; " bob"].
Proof. repeat split. discriminate. Qed.

(** C3, as the code has it: a non-empty [username] parameter has its
    leading and trailing commas removed and is split at every comma
    that is left.  Written as a list of comma-free entries joined by
    commas, with the first and the last entry non-empty, between any
    number of commas on either side, it resolves to exactly that list,
    in that order; entries are not trimmed and empty entries between
    commas are kept. *)
Theorem list_usernames_strip_then_split (l : list string) (m n : nat) :
  Forall (fun s => PyStr.free_of "," s = true) l ->
  hd "" l <> "" ->
  List.last l "" <> "" ->
  AccountViewSet.list_usernames
    (Some (PyStr.run "," m +:+ String.concat "," l +:+ PyStr.run "," n))
  = UList l.
Proof.
  intros Hall Hhd Hlast. unfold AccountViewSet.list_usernames.
  assert (String.eqb (PyStr.run "," m +:+ String.concat "," l +:+ PyStr.run "," n) ""
          = false) as ->.
  { destruct m; [|reflexivity].
    destruct l as [|[|a x] l]; simpl in Hhd; try congruence.
    destruct l; reflexivity. }
  f_equal. unfold AccountViewSet.parse_usernames.
  now apply (PyStrFacts.split_strip_concat ","%char).
Qed.

(** The example of the spec, ["alice,,bob,"]: three entries. *)
Lemma list_usernames_strip_then_split_example :
  AccountViewSet.list_usernames (Some "alice,,bob,") = UList ["alice"; ""; "bob"].
Proof.
  apply (list_usernames_strip_then_split ["alice"; ""; "bob"] 0 1).
  - repeat constructor.
  - discriminate.
  - discriminate.
Defined.

(** ** Retrieval of an unknown username *)

(** C2: when the settings service answers a retrieval with
    [UserNotFound], single or list, the view answers 403 to a staff
    caller and 404 to any other caller, with no body, and nothing else
    happens: the world is as before. *)
Theorem get_unknown_username_forbidden_or_not_found
    {DB Ext : Type} `{!Collaborators DB Ext}
    (request : Request.t) (w : World DB Ext) (e : exn) :
  exn_class_of e = UserNotFound ->
  (forall username,
      get_account_settings request (UList [username])
        (Request.GET request !! "view") (db w) = Raise e ->
      AccountViewSet.retrieve request username w
      = (Ok (Response VNone
               (if User.is_staff (Request.user request) then 403 else 404)), w))
  /\
  (forall usernames,
      Request.GET request !! "username" = Some usernames ->
      get_account_settings request (AccountViewSet.list_usernames (Some usernames))
        (Request.GET request !! "view") (db w) = Raise e ->
      AccountViewSet.list request w
      = (Ok (Response VNone
               (if User.is_staff (Request.user request) then 403 else 404)), w)).
Proof.
  intros Hclass. split.
  - intros username Hget. unfold AccountViewSet.retrieve. unfold_monad.
    now rewrite Hget, Hclass.
  - intros usernames Hparam Hget.
    unfold AccountViewSet.list, AccountViewSet.list_try. unfold_monad.
    now rewrite Hparam, Hget, Hclass.
Qed.

(** A staff caller and a plain caller asking for a username nobody
    has, through either view. *)
Lemma get_unknown_username_example :
  (AccountViewSet.retrieve (Store.request_of Store.staff [] []) "nobody" Store.w0
   = (Ok (Response VNone 403), Store.w0)
   /\ AccountViewSet.list
        (Store.request_of Store.staff [("username", "nobody,")] []) Store.w0
      = (Ok (Response VNone 403), Store.w0))
  /\
  (AccountViewSet.retrieve (Store.request_of Store.alice [] []) "nobody" Store.w0
   = (Ok (Response VNone 404), Store.w0)
   /\ AccountViewSet.list
        (Store.request_of Store.alice [("username", "nobody,")] []) Store.w0
      = (Ok (Response VNone 404), Store.w0)).
Proof.
  split; split.
  - apply (proj1 (get_unknown_username_forbidden_or_not_found
                    (Store.request_of Store.staff [] []) Store.w0
                    (Exn UserNotFound "") eq_refl) "nobody").
    reflexivity.
  - apply (proj2 (get_unknown_username_forbidden_or_not_found
                    (Store.request_of Store.staff [("username", "nobody,")] [])
                    Store.w0 (Exn UserNotFound "") eq_refl) "nobody,").
    + reflexivity.
    + reflexivity.
  - apply (proj1 (get_unknown_username_forbidden_or_not_found
                    (Store.request_of Store.alice [] []) Store.w0
                    (Exn UserNotFound "") eq_refl) "nobody").
    reflexivity.
  - apply (proj2 (get_unknown_username_forbidden_or_not_found
                    (Store.request_of Store.alice [("username", "nobody,")] [])
                    Store.w0 (Exn UserNotFound "") eq_refl) "nobody,").
    + reflexivity.
    + reflexivity.
Defined.

(** ** Partial update: the content type *)

(** C6: a PATCH request whose content type is not
    application/merge-patch+json is answered 415 whatever its body,
    and the update is not reached: the answer is the same for every
    update service and the world is as before. *)
Theorem patch_other_content_type_unsupported
    {DB Ext : Type} `{!Collaborators DB Ext}
    (request : Request.t) (username : string) (w : World DB Ext) :
  Request.content_type request <> "application/merge-patch+json" ->
  AccountViewSet.dispatch_PATCH request username w
  = (Ok (Response VNone 415), w).
Proof.
  intros Hct. unfold AccountViewSet.dispatch_PATCH, AccountViewSet.parser_classes.
  unfold select_parser. cbn [find].
  assert (String.eqb (media_type MergePatchParser) (Request.content_type request)
          = false) as ->.
  { apply String.eqb_neq. intros Heq. apply Hct. symmetry. exact Heq. }
  reflexivity.
Qed.

(** A JSON body that would be a valid patch, sent as application/json. *)
Lemma patch_other_content_type_example :
  AccountViewSet.dispatch_PATCH
    (Request.mk Store.alice ∅ "application/json"
       (Dict {[ "goals" := VStr "teach" ]}))
    "alice" Store.w0
  = (Ok (Response VNone 415), Store.w0).
Proof.
  apply patch_other_content_type_unsupported. discriminate.
Defined.

(** ** Deactivation and logout: the [user] field *)

(** C8, against the claim: a body that is not an object has no [user]
    field either, and [request.data.get], which is before the [try],
    raises [AttributeError] on it: the exception leaves the handler
    and no 404 is answered.  Here the body is the JSON array [[]]. *)
Lemma deactivate_logout_array_body_raises :
  DeactivateLogoutView.post
    (Request.mk Store.staff ∅ "application/json" (JList [])) Store.w0
  = (Raise (Exn AttributeError "'list' object has no attribute 'get'"), Store.w0).
Proof. reflexivity. Qed.

(** C8, as the code has it: a deactivate-logout request whose body is
    an object without a [user] field is answered 404 with a message,
    and the world is as before. *)
Theorem deactivate_logout_without_user
    {DB Ext : Type} `{!Collaborators DB Ext}
    (request : Request.t) (w : World DB Ext) (d : gmap string value) :
  Request.data request = Dict d ->
  d !! "user" = None ->
  DeactivateLogoutView.post request w
  = (Ok (Response (VDict [("message", VStr "The user was not specified.")]) 404), w).
Proof.
  intros Hdata Hmissing. unfold DeactivateLogoutView.post, data_get.
  rewrite Hdata, Hmissing. reflexivity.
Qed.

(** An empty object. *)
Lemma deactivate_logout_without_user_example :
  DeactivateLogoutView.post (Store.request_of Store.staff [] []) Store.w0
  = (Ok (Response (VDict [("message", VStr "The user was not specified.")]) 404),
     Store.w0).
Proof.
  apply (deactivate_logout_without_user
           (Store.request_of Store.staff [] []) Store.w0 ∅).
  - reflexivity.
  - reflexivity.
Defined.

(** ** Administrative deactivation *)

(** C10: when no user has the username, [User.objects.get] raises
    does-not-exist and the exception leaves the handler as it is, the
    world untouched; and the handler has no error response at all:
    whenever it returns a response, the status is 200. *)
Theorem deactivation_unknown_username_raises
    {DB Ext : Type} `{!Collaborators DB Ext}
    (request : Request.t) (username : string) (w : World DB Ext) (e : exn) :
  User_objects_get (VStr username) (db w) = Raise e ->
  exn_class_of e = User_DoesNotExist ->
  AccountDeactivationView.post request username w = (Raise e, w)
  /\ (forall request' username' (w0 w1 : World DB Ext) response,
         AccountDeactivationView.post request' username' w0 = (Ok response, w1) ->
         Response.status_code response = 200).
Proof.
  intros Hget _. split.
  - unfold AccountDeactivationView.post. unfold_monad. now rewrite Hget.
  - intros request' username' w0 w1 response.
    unfold AccountDeactivationView.post, _set_unusable_password. unfold_monad.
    repeat case_step; intros H; inversion H; reflexivity.
Qed.

(** Deactivating a username nobody has. *)
Lemma deactivation_unknown_username_example :
  AccountDeactivationView.post (Store.request_of Store.staff [] []) "nobody" Store.w0
  = (Raise Store.does_not_exist, Store.w0).
Proof.
  apply (deactivation_unknown_username_raises
           (Store.request_of Store.staff [] []) "nobody" Store.w0
           Store.does_not_exist).
  - reflexivity.
  - reflexivity.
Defined.

(** ** Partial update *)

(** C1: the update and the re-read are one transaction.  When the
    update returns, the settings sent back are the ones the settings
    service reads from the store as the update left it, and that world
    is the one the handler leaves.  When the update fails validation,
    the answer is 400 and the store is the one the handler found,
    whatever the update had written before failing, so that any
    retrieval afterwards answers as it would have before the patch. *)
Theorem partial_update_atomic
    {DB Ext : Type} `{!Collaborators DB Ext}
    (request : Request.t) (username : string) (w w1 : World DB Ext)
    (outcome : result unit) :
  update_account_settings (Request.user request) (Request.data request) username w
  = (outcome, w1) ->
  match outcome with
  | Ok _ =>
      forall settings rest,
        get_account_settings request (UList [username]) None (db w1)
        = Ok (settings :: rest) ->
        AccountViewSet.partial_update request username w
        = (Ok (Response (VDict settings) 200), w1)
  | Raise e =>
      forall field_errors,
        exn_class_of e = AccountValidationError field_errors ->
        exists w',
          AccountViewSet.partial_update request username w
          = (Ok (Response (VDict [("field_errors", field_errors)]) 400), w')
          /\ db w' = db w
          /\ forall request' username',
               fst (AccountViewSet.retrieve request' username' w')
               = fst (AccountViewSet.retrieve request' username' w)
  end.
Proof.
  intros Hupdate. destruct outcome as [[]|e].
  - intros settings rest Hread.
    unfold AccountViewSet.partial_update, AccountViewSet.partial_update_transaction.
    unfold_monad. now rewrite Hupdate, Hread.
  - intros field_errors Hclass.
    exists {| db := db w; ext := ext w1 |}. split; [|split].
    + unfold AccountViewSet.partial_update, AccountViewSet.partial_update_transaction.
      unfold_monad. now rewrite Hupdate, Hclass.
    + reflexivity.
    + intros request' username'. now apply retrieve_same_store.
Qed.

(** Alice clears her goals, then sends a patch with two fields the
    service rejects. *)
Lemma partial_update_atomic_example :
  AccountViewSet.partial_update
    (Store.request_of Store.alice [] [("goals", VNone)]) "alice" Store.w0
  = (Ok (Response (VDict [("username", VStr "alice");
                          ("email", VStr "alice@example.com");
                          ("goals", VNone)]) 200),
     mkWorld (Store.mkdb (Store.users Store.d0) {[ "alice" := VNone ]}
                (Store.org_tags Store.d0) (Store.social_auth Store.d0))
       (Store.mkext [] true))
  /\
  exists w',
    AccountViewSet.partial_update
      (Store.request_of Store.alice [] [("goals", VInt 3); ("name", VStr "A")])
      "alice" Store.w0
    = (Ok (Response
             (VDict [("field_errors",
                      VDict (Store.field_error <$>
                               [("goals", VInt 3); ("name", VStr "A")]))]) 400), w')
    /\ db w' = db Store.w0
    /\ forall request' username',
         fst (AccountViewSet.retrieve request' username' w')
         = fst (AccountViewSet.retrieve request' username' Store.w0).
Proof.
  split.
  - refine (partial_update_atomic
              (Store.request_of Store.alice [] [("goals", VNone)]) "alice"
              Store.w0 _ (Ok tt) _ _ _ _).
    + vm_compute. reflexivity.
    + vm_compute. reflexivity.
  - refine (partial_update_atomic
              (Store.request_of Store.alice [] [("goals", VInt 3); ("name", VStr "A")])
              "alice" Store.w0 Store.w0
              (Raise (Exn (AccountValidationError
                             (VDict (Store.field_error <$>
                                       [("goals", VInt 3); ("name", VStr "A")]))) ""))
              _ _ _).
    + vm_compute. reflexivity.
    + reflexivity.
Defined.

(** C5: an exception raised inside the transaction of a partial
    update, by the update or by the re-read, is answered by its class:
    [UserNotAuthorized] 403 to a staff caller and 404 to any other,
    [UserNotFound] 404, [AccountValidationError] 400 with the
    exception's [field_errors] under that key,
    [AccountUpdateError] 400 with the exception's
    [developer_message] and [user_message]; an exception of another
    class leaves the handler.  The store is rolled back in every case. *)
Theorem partial_update_error_mapping
    {DB Ext : Type} `{!Collaborators DB Ext}
    (request : Request.t) (username : string) (w w1 : World DB Ext) (e : exn) :
  AccountViewSet.partial_update_transaction request username w = (Raise e, w1) ->
  AccountViewSet.partial_update request username w
  = (match exn_class_of e with
     | UserNotAuthorized =>
         Ok (Response VNone
               (if User.is_staff (Request.user request) then 403 else 404))
     | UserNotFound => Ok (Response VNone 404)
     | AccountValidationError field_errors =>
         Ok (Response (VDict [("field_errors", field_errors)]) 400)
     | AccountUpdateError developer_message user_message =>
         Ok (Response (VDict [("developer_message", developer_message);
                              ("user_message", user_message)]) 400)
     | _ => Raise e
     end,
     {| db := db w; ext := ext w1 |}).
Proof.
  intros Hbody. unfold AccountViewSet.partial_update.
  unfold bind at 1. unfold try_except. unfold bind at 1.
  rewrite (atomic_rollback _ _ _ _ Hbody).
  destruct (exn_class_of e); reflexivity.
Qed.

(** Bob, who is not staff, patches alice's account: the update raises
    [UserNotAuthorized] and the answer is 404. *)
Lemma partial_update_error_mapping_example :
  AccountViewSet.partial_update
    (Store.request_of Store.bob [] [("goals", VStr "x")]) "alice" Store.w0
  = (Ok (Response VNone 404), Store.w0).
Proof.
  apply (partial_update_error_mapping
           (Store.request_of Store.bob [] [("goals", VStr "x")]) "alice"
           Store.w0 Store.w0 (Exn UserNotAuthorized "")).
  reflexivity.
Defined.

(** ** Retirement: mailing opt-out *)

(** C7, against the claim: the target is found, her two tags are
    opted out and the notification dispatch raises the user model's
    does-not-exist (a subscriber that looks up a user of its own).
    The [except] clause for that class is the first of the [try], so
    the answer is 404 without a body, not 500 with the text of the
    exception. *)
Lemma retire_mailings_dispatch_does_not_exist :
  Store.get_potentially_retired_user_ "alice" (VStr "retired__user_1") Store.d0
  = Ok Store.alice
  /\ @AccountRetireMailingsView.post_transaction _ _
       (Doubles.with_send Doubles.send_user_gone) Store.alice Store.w0
     = (Raise Store.does_not_exist,
        mkWorld (Store.mkdb (Store.users Store.d0) (Store.goals Store.d0)
                   Store.alice_opted_out (Store.social_auth Store.d0))
          (Store.mkext [] true))
  /\ @AccountRetireMailingsView.post _ _ (Doubles.with_send Doubles.send_user_gone)
       (Store.request_of Store.staff [] [("retired_username", VStr "retired__user_1")])
       "alice" Store.w0
     = (Ok (Response VNone 404), Store.w0).
Proof. repeat split. Qed.

(** C7, as the code has it: for a retire-mailings request whose body
    is an object that names its [retired_username]: when the user
    lookup raises does-not-exist the answer is 404; when the user is
    found and the transaction raises (the tag query, an opt-out step
    or the notification dispatch), the store is rolled back to the one
    the handler found, so no opt-out of this request is kept, and the
    answer is 500 with the text of the exception, unless the exception
    is of the does-not-exist class, which is answered 404 like a
    target that is not found. *)
Theorem retire_mailings_failure_rolls_back
    {DB Ext : Type} `{!Collaborators DB Ext}
    (request : Request.t) (username : string) (retired_username : value)
    (w : World DB Ext) (d : gmap string value) :
  Request.data request = Dict d ->
  d !! "retired_username" = Some retired_username ->
  (forall e,
      get_potentially_retired_user_by_username_and_hash
        username retired_username (db w) = Raise e ->
      exn_class_of e = User_DoesNotExist ->
      AccountRetireMailingsView.post request username w
      = (Ok (Response VNone 404), w))
  /\
  (forall user e w1,
      get_potentially_retired_user_by_username_and_hash
        username retired_username (db w) = Ok user ->
      AccountRetireMailingsView.post_transaction user w = (Raise e, w1) ->
      AccountRetireMailingsView.post request username w
      = (Ok (match exn_class_of e with
             | User_DoesNotExist => Response VNone 404
             | _ => Response (VStr (text_type e)) 500
             end),
         {| db := db w; ext := ext w1 |})).
Proof.
  intros Hdata Hfield. split.
  - intros e Hlookup Hclass.
    unfold AccountRetireMailingsView.post, AccountRetireMailingsView.post_try.
    unfold_monad. rewrite Hdata, Hfield. cbv beta iota.
    now rewrite Hlookup, Hclass.
  - intros user e w1 Hlookup Hbody.
    unfold AccountRetireMailingsView.post, AccountRetireMailingsView.post_try.
    unfold_monad. rewrite Hdata, Hfield. cbv beta iota. rewrite Hlookup, Hbody.
    destruct (exn_class_of e); reflexivity.
Qed.

(** The mailing provider is down: alice's two tags are opted out
    inside the transaction, the dispatch raises, and the handler
    answers 500 over the store it started from. *)
Lemma retire_mailings_failure_example :
  Store.org_tags
    (db (snd (AccountRetireMailingsView.post_transaction Store.alice Store.w_down)))
  = Store.alice_opted_out
  /\ AccountRetireMailingsView.post
       (Store.request_of Store.staff [] [("retired_username", VStr "retired__user_1")])
       "alice" Store.w_down
     = (Ok (Response (VStr "mailing provider unreachable") 500), Store.w_down).
Proof.
  split; [reflexivity|].
  apply (proj2 (retire_mailings_failure_rolls_back
                  (Store.request_of Store.staff []
                     [("retired_username", VStr "retired__user_1")])
                  "alice" (VStr "retired__user_1") Store.w_down
                  (list_to_map [("retired_username", VStr "retired__user_1")])
                  eq_refl eq_refl)
           Store.alice
           (Exn (OtherException "ConnectionError") "mailing provider unreachable")
           (mkWorld (Store.mkdb (Store.users Store.d0) (Store.goals Store.d0)
                       Store.alice_opted_out (Store.social_auth Store.d0))
              (Store.mkext [] false))).
  - reflexivity.
  - apply (retire_transaction_raises_at_dispatch Store.alice Store.w_down
             [UserOrgTag.mk 1 "edX" "email-optin" "True";
              UserOrgTag.mk 1 "MITx" "email-optin" "True"]
             (mkWorld (Store.mkdb (Store.users Store.d0) (Store.goals Store.d0)
                         Store.alice_opted_out (Store.social_auth Store.d0))
                (Store.mkext [] false))).
    + reflexivity.
    + reflexivity.
    + reflexivity.
Defined.

(** ** The broad catch of the two retirement endpoints *)

(** C4, against the claim: both handlers read [request.data] before
    their [try].  A retire-mailings request whose body has no
    [retired_username] raises [KeyError], and a deactivate-logout
    request whose body is not an object (here the JSON array [[]])
    raises [AttributeError]; either exception leaves the handler. *)
Lemma retire_mailings_without_field_raises :
  AccountRetireMailingsView.post (Store.request_of Store.staff [] []) "alice" Store.w0
  = (Raise (Exn KeyError "'retired_username'"), Store.w0)
  /\ DeactivateLogoutView.post
       (Request.mk Store.staff ∅ "application/json" (JList [])) Store.w0
     = (Raise (Exn AttributeError "'list' object has no attribute 'get'"), Store.w0).
Proof. split; reflexivity. Qed.

(** C4, as the code has it: at deactivate-logout for a request whose
    body is an object, and at retire-mailings for a request whose body
    is an object that names its [retired_username], the handler always
    returns a response, and an exception raised inside the [try] whose
    class is not the user model's does-not-exist is answered 500 with
    the text of the exception. *)
Theorem admin_endpoints_catch_inside_try
    {DB Ext : Type} `{!Collaborators DB Ext} :
  (forall (request : Request.t) (w : World DB Ext) (d : gmap string value),
      Request.data request = Dict d ->
      (exists response w', DeactivateLogoutView.post request w = (Ok response, w'))
      /\ forall username e w1,
           d !! "user" = Some username ->
           truthy username = true ->
           DeactivateLogoutView.post_try username w = (Raise e, w1) ->
           exn_class_of e <> User_DoesNotExist ->
           DeactivateLogoutView.post request w
           = (Ok (Response (VStr (text_type e)) 500), w1))
  /\
  (forall (request : Request.t) (username : string) (retired_username : value)
          (w : World DB Ext) (d : gmap string value),
      Request.data request = Dict d ->
      d !! "retired_username" = Some retired_username ->
      (exists response w',
          AccountRetireMailingsView.post request username w = (Ok response, w'))
      /\ forall e w1,
           AccountRetireMailingsView.post_try username retired_username w
           = (Raise e, w1) ->
           exn_class_of e <> User_DoesNotExist ->
           AccountRetireMailingsView.post request username w
           = (Ok (Response (VStr (text_type e)) 500), w1)).
Proof.
  split.
  - intros request w d Hdata. split.
    + unfold DeactivateLogoutView.post, data_get. rewrite Hdata.
      unfold bind at 1. unfold ret at 1.
      destruct (negb (truthy (from_option id VNone (d !! "user"))));
        [now eexists; eexists|].
      unfold bind at 1. unfold try_except. unfold bind at 1.
      destruct (DeactivateLogoutView.post_try _ w) as [[[]|e] w1].
      * now eexists; eexists.
      * destruct (exn_class_of e); now eexists; eexists.
    + intros username e w1 Hfield Htruthy Hbody Hclass.
      unfold DeactivateLogoutView.post, data_get. rewrite Hdata, Hfield.
      unfold bind at 1. unfold ret at 1.
      cbn [from_option id]. rewrite Htruthy. cbn [negb].
      unfold bind at 1. unfold try_except. unfold bind at 1. rewrite Hbody.
      destruct (exn_class_of e); try reflexivity. congruence.
  - intros request username retired_username w d Hdata Hfield. split.
    + unfold AccountRetireMailingsView.post, data_getitem, getitem.
      rewrite Hdata, Hfield.
      unfold bind at 1. unfold ret at 1.
      unfold bind at 1. unfold try_except. unfold bind at 1.
      destruct (AccountRetireMailingsView.post_try _ _ w) as [[[]|e] w1].
      * now eexists; eexists.
      * destruct (exn_class_of e); now eexists; eexists.
    + intros e w1 Hbody Hclass.
      unfold AccountRetireMailingsView.post, data_getitem, getitem.
      rewrite Hdata, Hfield.
      unfold bind at 1. unfold ret at 1.
      unfold bind at 1. unfold try_except. unfold bind at 1. rewrite Hbody.
      destruct (exn_class_of e); try reflexivity. congruence.
Qed.

(** Retire-mailings with the mailing provider down. *)
Lemma admin_endpoints_catch_inside_try_example :
  AccountRetireMailingsView.post
    (Store.request_of Store.staff [] [("retired_username", VStr "retired__user_1")])
    "alice" Store.w_down
  = (Ok (Response (VStr "mailing provider unreachable") 500), Store.w_down).
Proof.
  apply (proj2 (proj2 admin_endpoints_catch_inside_try
                  (Store.request_of Store.staff []
                     [("retired_username", VStr "retired__user_1")])
                  "alice" (VStr "retired__user_1") Store.w_down
                  (list_to_map [("retired_username", VStr "retired__user_1")])
                  eq_refl eq_refl)
           (Exn (OtherException "ConnectionError") "mailing provider unreachable")
           Store.w_down).
  - reflexivity.
  - discriminate.
Defined.

(** ** Single retrieval against list retrieval *)

(** C9: take a username (non-empty, without a comma), a caller whom
    the settings service answers alike on both requests, and the same
    view selector.  When the list retrieval with that one username
    answers 200 with a sequence of a sole element, the single
    retrieval of the username answers 200 with that element. *)
Theorem retrieve_is_sole_element_of_list
    {DB Ext : Type} `{!Collaborators DB Ext}
    (r_single r_list : Request.t) (username : string)
    (w w' : World DB Ext) (settings : value) :
  username <> "" ->
  PyStr.free_of "," username = true ->
  Request.GET r_list !! "username" = Some username ->
  Request.GET r_list !! "view" = Request.GET r_single !! "view" ->
  (forall names view d,
      get_account_settings r_list names view d
      = get_account_settings r_single names view d) ->
  AccountViewSet.list r_list w = (Ok (Response (VList [settings]) 200), w') ->
  AccountViewSet.retrieve r_single username w
  = (Ok (Response settings 200), w).
Proof.
  intros Hne Hfree Hparam Hview Hsame.
  unfold AccountViewSet.list, AccountViewSet.list_try, AccountViewSet.list_usernames,
    AccountViewSet.retrieve.
  rewrite Hparam.
  assert (String.eqb username "" = false) as -> by now apply String.eqb_neq.
  rewrite (parse_single_username _ Hfree), Hview.
  unfold_monad. rewrite Hsame.
  destruct (get_account_settings r_single (UList [username])
              (Request.GET r_single !! "view") (db w)) as [l|e].
  - intros H. inversion H as [[Hl Hw]].
    destruct l as [|m [|m' l]]; try discriminate.
    simpl in Hl. now inversion Hl.
  - destruct (exn_class_of e); intros H; inversion H.
Qed.

(** Alice reads her own account through both views. *)
Lemma retrieve_is_sole_element_of_list_example :
  AccountViewSet.retrieve (Store.request_of Store.alice [] []) "alice" Store.w0
  = (Ok (Response (VDict [("username", VStr "alice");
                          ("email", VStr "alice@example.com");
                          ("goals", VStr "learn")]) 200),
     Store.w0).
Proof.
  apply (retrieve_is_sole_element_of_list
           (Store.request_of Store.alice [] [])
           (Store.request_of Store.alice [("username", "alice")] [])
           "alice" Store.w0 Store.w0).
  - discriminate.
  - reflexivity.
  - reflexivity.
  - reflexivity.
  - intros names view d. reflexivity.
  - reflexivity.
Defined.


(** * Further properties of the views *)

(** ** What [strip] then [split] can produce *)

Module PyStrShape.
Import PyStr.
Section WithSeparator.
Variable c : ascii.

Lemma split_not_nil s : split c s <> [].
Proof.
  destruct s as [|a s]; simpl; [discriminate|].
  destruct (Ascii.eqb a c); [discriminate|].
  destruct (split c s); discriminate.
Qed.

(** Joining what [split] gave is the string that was split. *)
Lemma concat_split s : String.concat (sep c) (split c s) = s.
Proof.
  induction s as [|a s IH]; [reflexivity|].
  cbn [split]. destruct (Ascii.eqb_spec a c) as [->|Hne].
  - destruct (split c s) as [|h t] eqn:E; [now apply split_not_nil in E|].
    rewrite PyStrFacts.concat_cons. now rewrite IH.
  - destruct (split c s) as [|h t] eqn:E; [now apply split_not_nil in E|].
    destruct t as [|h' t].
    + simpl in *. now rewrite IH.
    + rewrite PyStrFacts.concat_cons in *.
      change (String a h +:+ String c (String.concat (sep c) (h' :: t)))
        with (String a (h +:+ String c (String.concat (sep c) (h' :: t)))).
      now rewrite IH.
Qed.

(** No entry of a split holds the separator. *)
Lemma split_entries_free s : Forall (fun x => free_of c x = true) (split c s).
Proof.
  induction s as [|a s IH]; [repeat constructor|].
  cbn [split]. destruct (Ascii.eqb a c) eqn:Ha.
  - constructor; [reflexivity | exact IH].
  - destruct (split c s) as [|h t]; [repeat constructor; simpl; now rewrite Ha|].
    inversion IH as [|? ? Hh Ht]; subst.
    constructor; [|exact Ht]. simpl. now rewrite Ha, Hh.
Qed.

Lemma lstrip_run_only n : lstrip c (run c n) = "".
Proof.
  induction n as [|n IH]; simpl; [reflexivity|]. now rewrite Ascii.eqb_refl.
Qed.

(** What is left of [lstrip] is empty or starts with another
    character. *)
Lemma lstrip_cases s :
  lstrip c s = "" \/ exists a r, lstrip c s = String a r /\ Ascii.eqb a c = false.
Proof.
  induction s as [|a s IH]; simpl; [now left|].
  destruct (Ascii.eqb a c) eqn:Ha; [exact IH|].
  right. now exists a, s.
Qed.

(** A string [lstrip] empties is a run of the separator. *)
Lemma lstrip_empty_run s : lstrip c s = "" -> s = run c (String.length s).
Proof.
  induction s as [|a s IH]; simpl; [reflexivity|].
  destruct (Ascii.eqb_spec a c) as [->|Hne]; [|discriminate].
  intros H. now rewrite <- (IH H).
Qed.

Lemma rstrip_cons a s :
  Ascii.eqb a c = false -> rstrip c (String a s) = String a (rstrip c s).
Proof.
  intros Ha. cbn [rstrip]. destruct (rstrip c s); [now rewrite Ha | reflexivity].
Qed.

Lemma split_head a s :
  Ascii.eqb a c = false -> hd "" (split c (String a s)) <> "".
Proof.
  intros Ha. cbn [split]. rewrite Ha.
  destruct (split c s); discriminate.
Qed.

Lemma last_cons {A} (x : A) l d : l <> [] -> List.last (x :: l) d = List.last l d.
Proof. destruct l; [congruence | reflexivity]. Qed.

(** What is left of [rstrip] is empty or its last entry is not. *)
Lemma rstrip_last s :
  rstrip c s = "" \/ List.last (split c (rstrip c s)) "" <> "".
Proof.
  induction s as [|a s IH]; [now left|].
  cbn [rstrip]. destruct (rstrip c s) as [|b r] eqn:E.
  - destruct (Ascii.eqb a c) eqn:Ha; [now left|].
    right. simpl. now rewrite Ha.
  - right. destruct IH as [IH|IH]; [discriminate|].
    cbn [split] in *. destruct (Ascii.eqb a c).
    + rewrite last_cons; [exact IH|].
      destruct (Ascii.eqb b c); [discriminate|].
      destruct (split c r); discriminate.
    + destruct (if Ascii.eqb b c then "" :: split c r
                else match split c r with
                     | [] => [String b ""]
                     | h :: t => String b h :: t
                     end) as [|h t] eqn:E'.
      * discriminate.
      * destruct t as [|h' t]; [discriminate|].
        rewrite last_cons by discriminate.
        rewrite last_cons in IH by discriminate. exact IH.
Qed.

End WithSeparator.
End PyStrShape.

(** X1: the parsed list joined by commas is the parameter without its
    leading and trailing commas: parsing drops nothing else and changes
    no entry. *)
Theorem parse_usernames_join (usernames : string) :
  String.concat "," (AccountViewSet.parse_usernames usernames)
  = PyStr.strip "," usernames.
Proof.
  unfold AccountViewSet.parse_usernames.
  apply (PyStrShape.concat_split ","%char).
Qed.

(** X2: the parsed list is never empty and none of its entries holds a
    comma. *)
Theorem parse_usernames_entries (usernames : string) :
  AccountViewSet.parse_usernames usernames <> []
  /\ Forall (fun name => PyStr.free_of "," name = true)
       (AccountViewSet.parse_usernames usernames).
Proof.
  unfold AccountViewSet.parse_usernames. split.
  - apply PyStrShape.split_not_nil.
  - apply PyStrShape.split_entries_free.
Qed.

(** X3: an empty entry is never the first or the last of the parsed
    list, unless the parameter is made of commas only, and then the
    list is the one empty entry. *)
Theorem parse_usernames_ends (usernames : string) :
  (usernames = PyStr.run "," (String.length usernames)
   /\ AccountViewSet.parse_usernames usernames = [""])
  \/ (hd "" (AccountViewSet.parse_usernames usernames) <> ""
      /\ List.last (AccountViewSet.parse_usernames usernames) "" <> "").
Proof.
  unfold AccountViewSet.parse_usernames, PyStr.strip.
  destruct (PyStrShape.lstrip_cases ","%char usernames) as [He|(a & r & Hs & Ha)].
  - left. split; [now apply PyStrShape.lstrip_empty_run|]. now rewrite He.
  - right. split.
    + rewrite Hs, (PyStrShape.rstrip_cons _ _ _ Ha).
      now apply PyStrShape.split_head.
    + destruct (PyStrShape.rstrip_last ","%char (PyStr.lstrip "," usernames))
        as [He|Hl]; [|exact Hl].
      rewrite Hs, (PyStrShape.rstrip_cons _ _ _ Ha) in He. discriminate.
Qed.

(** X4: a parameter made of one or more commas, and nothing else, asks
    the settings service for the one username [""]. *)
Theorem list_usernames_only_commas (n : nat) :
  (0 < n)%nat ->
  AccountViewSet.list_usernames (Some (PyStr.run "," n)) = UList [""].
Proof.
  intros Hn. destruct n as [|n]; [lia|].
  unfold AccountViewSet.list_usernames, AccountViewSet.parse_usernames, PyStr.strip.
  rewrite PyStrShape.lstrip_run_only. reflexivity.
Qed.

(** The parameter [",,,"]. *)
Lemma list_usernames_only_commas_example :
  AccountViewSet.list_usernames (Some ",,,") = UList [""].
Proof.
  apply (list_usernames_only_commas 3). lia.
Defined.

(** ** Retrieval *)

(** X5: for a username (non-empty, without a comma), the same caller,
    the same view selector and a settings service that answers both
    requests alike, whatever the list retrieval with that one username
    does other than answer 200 (a 403, a 404, an exception that leaves
    the handler), the single retrieval does too. *)
Theorem list_retrieve_fail_alike
    {DB Ext : Type} `{!Collaborators DB Ext}
    (r_single r_list : Request.t) (username : string)
    (w w' : World DB Ext) (outcome : result Response.t) :
  username <> "" ->
  PyStr.free_of "," username = true ->
  Request.GET r_list !! "username" = Some username ->
  Request.GET r_list !! "view" = Request.GET r_single !! "view" ->
  Request.user r_list = Request.user r_single ->
  (forall names view d,
      get_account_settings r_list names view d
      = get_account_settings r_single names view d) ->
  AccountViewSet.list r_list w = (outcome, w') ->
  (forall response, outcome = Ok response -> Response.status_code response <> 200) ->
  AccountViewSet.retrieve r_single username w = (outcome, w).
Proof.
  intros Hne Hfree Hparam Hview Huser Hsame.
  unfold AccountViewSet.list, AccountViewSet.list_try, AccountViewSet.list_usernames,
    AccountViewSet.retrieve, forbidden_or_not_found.
  rewrite Hparam, Huser.
  assert (String.eqb username "" = false) as -> by now apply String.eqb_neq.
  rewrite (parse_single_username _ Hfree), Hview.
  unfold_monad. rewrite Hsame.
  destruct (get_account_settings r_single (UList [username])
              (Request.GET r_single !! "view") (db w)) as [l|e].
  - intros H Hstatus. inversion H; subst.
    exfalso. now apply (Hstatus _ eq_refl).
  - destruct (exn_class_of e); intros H _; inversion H; reflexivity.
Qed.

(** Bob asks for a username nobody has, through both views. *)
Lemma list_retrieve_fail_alike_example :
  AccountViewSet.retrieve (Store.request_of Store.bob [] []) "nobody" Store.w0
  = (Ok (Response VNone 404), Store.w0).
Proof.
  apply (list_retrieve_fail_alike
           (Store.request_of Store.bob [] [])
           (Store.request_of Store.bob [("username", "nobody")] [])
           "nobody" Store.w0 Store.w0).
  - discriminate.
  - reflexivity.
  - reflexivity.
  - reflexivity.
  - reflexivity.
  - intros names view d. reflexivity.
  - reflexivity.
  - intros response H. inversion H. discriminate.
Defined.

(** X6: a single retrieval lets an exception out in two cases only:
    the settings service raised one that is not [UserNotFound], or it
    answered an empty list, and then the exception is the [IndexError]
    of [account_settings[0]].  The world is as before in both. *)
Theorem retrieve_raises_iff
    {DB Ext : Type} `{!Collaborators DB Ext}
    (request : Request.t) (username : string) (w w' : World DB Ext) (e : exn) :
  AccountViewSet.retrieve request username w = (Raise e, w')
  <->
  w' = w
  /\ ((get_account_settings request (UList [username])
         (Request.GET request !! "view") (db w) = Raise e
       /\ exn_class_of e <> UserNotFound)
      \/ (get_account_settings request (UList [username])
            (Request.GET request !! "view") (db w) = Ok []
          /\ e = Exn IndexError "list index out of range")).
Proof.
  unfold AccountViewSet.retrieve. unfold_monad.
  destruct (get_account_settings request (UList [username])
              (Request.GET request !! "view") (db w)) as [[|m l]|e0].
  - split.
    + intros H. inversion H. split; [reflexivity|]. right. now split.
    + intros [-> [[H _]|[_ ->]]]; [discriminate | reflexivity].
  - split.
    + intros H. inversion H.
    + intros [_ [[H _]|[H _]]]; discriminate.
  - split.
    + destruct (exn_class_of e0) eqn:Hc; intros H; inversion H; subst;
        (split; [reflexivity|]); left; (split; [reflexivity|]);
        rewrite Hc; discriminate.
    + intros [-> [[H Hc]|[H _]]]; [|discriminate].
      inversion H; subst.
      destruct (exn_class_of e); try reflexivity. congruence.
Qed.

(** ** Partial update *)

(** X7: what a partial update answers with status 200 is what a single
    retrieval of the same username by the same request, without a view
    selector, answers right after it. *)
Theorem partial_update_then_retrieve
    {DB Ext : Type} `{!Collaborators DB Ext}
    (request : Request.t) (username : string) (w w' : World DB Ext)
    (response : Response.t) :
  AccountViewSet.partial_update request username w = (Ok response, w') ->
  Response.status_code response = 200 ->
  Request.GET request !! "view" = None ->
  AccountViewSet.retrieve request username w' = (Ok response, w').
Proof.
  unfold AccountViewSet.partial_update, AccountViewSet.partial_update_transaction,
    AccountViewSet.retrieve, forbidden_or_not_found.
  intros H Hstatus Hview. rewrite Hview. unfold_monad.
  destruct (update_account_settings (Request.user request) (Request.data request)
              username w) as [[[]|e] w1].
  - destruct (get_account_settings request (UList [username]) None (db w1))
      as [[|m l]|e] eqn:Hread.
    + discriminate.
    + inversion H; subst. now rewrite Hread.
    + destruct (exn_class_of e); inversion H; subst;
        destruct (User.is_staff (Request.user request)); discriminate Hstatus.
  - destruct (exn_class_of e); inversion H; subst;
      destruct (User.is_staff (Request.user request)); discriminate Hstatus.
Qed.

(** Alice clears her goals and reads her account. *)
Lemma partial_update_then_retrieve_example :
  AccountViewSet.retrieve (Store.request_of Store.alice [] [("goals", VNone)]) "alice"
    (mkWorld (Store.mkdb (Store.users Store.d0) {[ "alice" := VNone ]}
                (Store.org_tags Store.d0) (Store.social_auth Store.d0))
       (Store.mkext [] true))
  = (Ok (Response (VDict [("username", VStr "alice");
                          ("email", VStr "alice@example.com");
                          ("goals", VNone)]) 200),
     mkWorld (Store.mkdb (Store.users Store.d0) {[ "alice" := VNone ]}
                (Store.org_tags Store.d0) (Store.social_auth Store.d0))
       (Store.mkext [] true)).
Proof.
  apply (partial_update_then_retrieve
           (Store.request_of Store.alice [] [("goals", VNone)]) "alice" Store.w0).
  - vm_compute. reflexivity.
  - reflexivity.
  - reflexivity.
Defined.

(** X8: a partial update that does not answer 200, whether it answers
    an error or lets an exception out, leaves the store as it found
    it. *)
Theorem partial_update_store_unchanged_unless_200
    {DB Ext : Type} `{!Collaborators DB Ext}
    (request : Request.t) (username : string) (w w' : World DB Ext)
    (outcome : result Response.t) :
  AccountViewSet.partial_update request username w = (outcome, w') ->
  (forall response, outcome = Ok response -> Response.status_code response <> 200) ->
  db w' = db w.
Proof.
  unfold AccountViewSet.partial_update, AccountViewSet.partial_update_transaction.
  unfold_monad.
  destruct (update_account_settings (Request.user request) (Request.data request)
              username w) as [[[]|e] w1].
  - destruct (get_account_settings request (UList [username]) None (db w1))
      as [[|m l]|e].
    + intros H _. now inversion H.
    + intros H Hstatus. inversion H; subst.
      exfalso. now apply (Hstatus _ eq_refl).
    + destruct (exn_class_of e); intros H _; now inversion H.
  - destruct (exn_class_of e); intros H _; now inversion H.
Qed.

(** The update goes through and the re-read finds no row: the
    [IndexError] leaves the handler and alice's goals are as before. *)
Lemma partial_update_store_unchanged_example :
  db (snd (@AccountViewSet.partial_update _ _
             (Doubles.with_settings Doubles.no_settings)
             (Store.request_of Store.alice [] [("goals", VNone)]) "alice" Store.w0))
  = Store.d0.
Proof.
  apply (@partial_update_store_unchanged_unless_200 _ _
           (Doubles.with_settings Doubles.no_settings)
           (Store.request_of Store.alice [] [("goals", VNone)]) "alice"
           Store.w0 _ (Raise (Exn IndexError "list index out of range"))).
  - vm_compute. reflexivity.
  - intros response H. discriminate.
Defined.

(** ** Status codes *)

(** Split on the innermost scrutinee of the goal, then read the
    status off the response the handler returned. *)
Ltac case_inner :=
  match goal with
  | |- context [match ?x with _ => _ end] =>
      lazymatch x with
      | context [match _ with _ => _ end] => fail
      | _ => destruct x eqn:?
      end
  end.

Ltac settle_status :=
  repeat (case_inner; cbv beta iota);
  let H := fresh in
  intros H; inversion H; subst;
  cbv [Response.status_code Response HTTP_200_OK HTTP_204_NO_CONTENT
         HTTP_400_BAD_REQUEST HTTP_403_FORBIDDEN HTTP_404_NOT_FOUND
         HTTP_500_INTERNAL_SERVER_ERROR];
  try discriminate; auto 6.

(** X9: a caller without staff privilege is never answered 403 by the
    list retrieval, the single retrieval or the partial update. *)
Theorem non_staff_never_forbidden
    {DB Ext : Type} `{!Collaborators DB Ext}
    (request : Request.t) (w w' : World DB Ext) (response : Response.t) :
  User.is_staff (Request.user request) = false ->
  (AccountViewSet.list request w = (Ok response, w') ->
   Response.status_code response <> 403)
  /\ (forall username,
         AccountViewSet.retrieve request username w = (Ok response, w') ->
         Response.status_code response <> 403)
  /\ (forall username,
         AccountViewSet.partial_update request username w = (Ok response, w') ->
         Response.status_code response <> 403).
Proof.
  intros Hstaff. repeat split.
  - unfold AccountViewSet.list, AccountViewSet.list_try, forbidden_or_not_found.
    rewrite Hstaff. unfold_monad. settle_status.
  - intros username.
    unfold AccountViewSet.retrieve, forbidden_or_not_found.
    rewrite Hstaff. unfold_monad. settle_status.
  - intros username.
    unfold AccountViewSet.partial_update, AccountViewSet.partial_update_transaction,
      forbidden_or_not_found.
    rewrite Hstaff. unfold_monad. settle_status.
Qed.

(** Bob patches alice's account. *)
Lemma non_staff_never_forbidden_example :
  AccountViewSet.partial_update
    (Store.request_of Store.bob [] [("goals", VStr "x")]) "alice" Store.w0
  = (Ok (Response VNone 404), Store.w0)
  /\ Response.status_code (Response VNone 404) <> 403.
Proof.
  split; [reflexivity|].
  apply (proj2 (proj2 (non_staff_never_forbidden
                         (Store.request_of Store.bob [] [("goals", VStr "x")])
                         Store.w0 Store.w0 (Response VNone 404) eq_refl))
           "alice").
  reflexivity.
Defined.

(** X10: the statuses a handler can answer with: 200, 403 or 404 for
    the two retrievals; 200, 400, 403 or 404 for the partial update;
    204, 404 or 500 for retire-mailings and deactivate-logout. *)
Theorem response_status_codes
    {DB Ext : Type} `{!Collaborators DB Ext}
    (request : Request.t) (w w' : World DB Ext) (response : Response.t) :
  (AccountViewSet.list request w = (Ok response, w') ->
   Response.status_code response = 200 \/ Response.status_code response = 403
   \/ Response.status_code response = 404)
  /\ (forall username,
         AccountViewSet.retrieve request username w = (Ok response, w') ->
         Response.status_code response = 200 \/ Response.status_code response = 403
         \/ Response.status_code response = 404)
  /\ (forall username,
         AccountViewSet.partial_update request username w = (Ok response, w') ->
         Response.status_code response = 200 \/ Response.status_code response = 400
         \/ Response.status_code response = 403 \/ Response.status_code response = 404)
  /\ (forall username,
         AccountRetireMailingsView.post request username w = (Ok response, w') ->
         Response.status_code response = 204 \/ Response.status_code response = 404
         \/ Response.status_code response = 500)
  /\ (DeactivateLogoutView.post request w = (Ok response, w') ->
      Response.status_code response = 204 \/ Response.status_code response = 404
      \/ Response.status_code response = 500).
Proof.
  repeat split.
  - unfold AccountViewSet.list, AccountViewSet.list_try, forbidden_or_not_found.
    unfold_monad. settle_status.
  - intros username. unfold AccountViewSet.retrieve, forbidden_or_not_found.
    unfold_monad. settle_status.
  - intros username.
    unfold AccountViewSet.partial_update, AccountViewSet.partial_update_transaction,
      forbidden_or_not_found.
    unfold_monad. settle_status.
  - intros username. unfold AccountRetireMailingsView.post.
    unfold_monad. settle_status.
  - unfold DeactivateLogoutView.post.
    unfold_monad. settle_status.
Qed.

(** The answer to a retire-mailings request with the provider down. *)
Lemma response_status_codes_example :
  AccountRetireMailingsView.post
    (Store.request_of Store.staff [] [("retired_username", VStr "retired__user_1")])
    "alice" Store.w_down
  = (Ok (Response (VStr "mailing provider unreachable") 500), Store.w_down)
  /\ (Response.status_code (Response (VStr "mailing provider unreachable") 500) = 204
      \/ Response.status_code (Response (VStr "mailing provider unreachable") 500) = 404
      \/ Response.status_code (Response (VStr "mailing provider unreachable") 500)
         = 500).
Proof.
  split; [reflexivity|].
  apply (proj1 (proj2 (proj2 (proj2
           (response_status_codes
              (Store.request_of Store.staff []
                 [("retired_username", VStr "retired__user_1")])
              Store.w_down Store.w_down
              (Response (VStr "mailing provider unreachable") 500)))))
           "alice").
  reflexivity.
Defined.

(** ** Administrative deactivation *)

(** X11: the deactivation runs in no transaction.  Once the user is
    found and saved with the unusable password, the answer is read
    from the store the save left, and when that read raises or finds
    no row, the exception leaves the handler and the save stays. *)
Theorem deactivation_after_save
    {DB Ext : Type} `{!Collaborators DB Ext}
    (request : Request.t) (username : string) (w w1 : World DB Ext)
    (user : User.t) :
  User_objects_get (VStr username) (db w) = Ok user ->
  User_save (User_set_unusable_password user) w = (Ok tt, w1) ->
  AccountDeactivationView.post request username w
  = match get_account_settings request (UList [username]) None (db w1) with
    | Ok (settings :: _) => (Ok (Response (VDict settings) 200), w1)
    | Ok [] => (Raise (Exn IndexError "list index out of range"), w1)
    | Raise e => (Raise e, w1)
    end.
Proof.
  intros Hget Hsave.
  unfold AccountDeactivationView.post, _set_unusable_password. unfold_monad.
  rewrite Hget, Hsave.
  now destruct (get_account_settings request (UList [username]) None (db w1))
    as [[|m l]|e].
Qed.

(** The settings service is down: the exception leaves the handler
    and alice's password is the unusable one. *)
Lemma deactivation_after_save_example :
  @AccountDeactivationView.post _ _ (Doubles.with_settings Doubles.settings_down)
    (Store.request_of Store.staff [] []) "alice" Store.w0
  = (Raise (Exn (OtherException "OperationalError") "settings unavailable"),
     mkWorld
       (Store.mkdb
          [User.mk 1 "alice" "alice@example.com" "!" false; Store.bob; Store.staff]
          (Store.goals Store.d0) (Store.org_tags Store.d0)
          (Store.social_auth Store.d0))
       (Store.mkext [] true)).
Proof.
  apply (@deactivation_after_save _ _ (Doubles.with_settings Doubles.settings_down)
           (Store.request_of Store.staff [] []) "alice" Store.w0 _ Store.alice).
  - reflexivity.
  - reflexivity.
Defined.

(** ** Deactivation and logout *)

(** X12: a [user] field that is there but empty ([None], [""], [0],
    [False], an empty list or object) is answered like a missing one:
    404 with the message, the world as before. *)
Theorem deactivate_logout_falsy_user
    {DB Ext : Type} `{!Collaborators DB Ext}
    (request : Request.t) (w : World DB Ext) (d : gmap string value)
    (username : value) :
  Request.data request = Dict d ->
  d !! "user" = Some username ->
  truthy username = false ->
  DeactivateLogoutView.post request w
  = (Ok (Response (VDict [("message", VStr "The user was not specified.")]) 404), w).
Proof.
  intros Hdata Hfield Hfalsy. unfold DeactivateLogoutView.post, data_get.
  rewrite Hdata, Hfield. unfold bind, ret. cbn [from_option id].
  now rewrite Hfalsy.
Qed.

(** A body with [user] set to the empty string. *)
Lemma deactivate_logout_falsy_user_example :
  DeactivateLogoutView.post
    (Store.request_of Store.staff [] [("user", VStr "")]) Store.w0
  = (Ok (Response (VDict [("message", VStr "The user was not specified.")]) 404),
     Store.w0).
Proof.
  apply (deactivate_logout_falsy_user
           (Store.request_of Store.staff [] [("user", VStr "")]) Store.w0
           (list_to_map [("user", VStr "")]) (VStr "")).
  - reflexivity.
  - reflexivity.
  - reflexivity.
Defined.

(** X13: when the user is found and a step of the transaction raises,
    the store is the one the handler found (the social-auth links are
    still there, the email is unchanged), and the answer is 500 with
    the text of the exception, or 404 for the user model's
    does-not-exist. *)
Theorem deactivate_logout_failure_rolls_back
    {DB Ext : Type} `{!Collaborators DB Ext}
    (request : Request.t) (w w1 : World DB Ext) (d : gmap string value)
    (username : value) (user : User.t) (e : exn) :
  Request.data request = Dict d ->
  d !! "user" = Some username ->
  truthy username = true ->
  User_objects_get username (db w) = Ok user ->
  DeactivateLogoutView.post_transaction user w = (Raise e, w1) ->
  DeactivateLogoutView.post request w
  = (Ok (match exn_class_of e with
         | User_DoesNotExist => Response VNone 404
         | _ => Response (VStr (text_type e)) 500
         end),
     {| db := db w; ext := ext w1 |}).
Proof.
  intros Hdata Hfield Htruthy Hget Hbody.
  unfold DeactivateLogoutView.post, DeactivateLogoutView.post_try, data_get.
  rewrite Hdata, Hfield. unfold bind at 1. unfold ret at 1.
  cbn [from_option id]. rewrite Htruthy. cbn [negb].
  unfold_monad. rewrite Hget, Hbody.
  destruct (exn_class_of e); reflexivity.
Qed.

(** The store refuses the save: alice's social-auth link, deleted
    inside the transaction, is still there. *)
Lemma deactivate_logout_failure_example :
  Store.social_auth
    (db (snd (@DeactivateLogoutView.post_transaction _ _
                (Doubles.with_save Doubles.save_refused) Store.alice Store.w0)))
  = []
  /\ @DeactivateLogoutView.post _ _ (Doubles.with_save Doubles.save_refused)
       (Store.request_of Store.staff [] [("user", VStr "alice")]) Store.w0
     = (Ok (Response (VStr "save refused") 500), Store.w0).
Proof.
  split; [reflexivity|].
  apply (@deactivate_logout_failure_rolls_back _ _
           (Doubles.with_save Doubles.save_refused)
           (Store.request_of Store.staff [] [("user", VStr "alice")])
           Store.w0
           (mkWorld (Store.mkdb (Store.users Store.d0) (Store.goals Store.d0)
                       (Store.org_tags Store.d0) [])
              (Store.mkext [] true))
           (list_to_map [("user", VStr "alice")])
           (VStr "alice") Store.alice
           (Exn (OtherException "IntegrityError") "save refused")).
  - reflexivity.
  - reflexivity.
  - reflexivity.
  - reflexivity.
  - reflexivity.
Defined.

(** X14: the steps of a deactivate-logout that goes through, in their
    order: the social-auth links of the user are deleted, the user is
    saved with the retired email, then saved again with the retired
    email and the unusable password; the answer is 204 over the world
    the last save left. *)
Theorem deactivate_logout_success
    {DB Ext : Type} `{!Collaborators DB Ext}
    (request : Request.t) (w w1 w2 w3 : World DB Ext) (d : gmap string value)
    (username : value) (user : User.t) (retired_email : string) :
  Request.data request = Dict d ->
  d !! "user" = Some username ->
  truthy username = true ->
  User_objects_get username (db w) = Ok user ->
  UserSocialAuth_objects_filter_delete (User.id user) w = (Ok tt, w1) ->
  get_retired_email_by_email (User.email user) = Ok retired_email ->
  User_save
    (User.mk (User.id user) (User.username user) retired_email
       (User.password user) (User.is_staff user)) w1 = (Ok tt, w2) ->
  User_save
    (User_set_unusable_password
       (User.mk (User.id user) (User.username user) retired_email
          (User.password user) (User.is_staff user))) w2 = (Ok tt, w3) ->
  DeactivateLogoutView.post request w = (Ok (Response VNone 204), w3).
Proof.
  intros Hdata Hfield Htruthy Hget Hdelete Hemail Hsave1 Hsave2.
  unfold DeactivateLogoutView.post, DeactivateLogoutView.post_try,
    DeactivateLogoutView.post_transaction, _set_unusable_password, data_get.
  rewrite Hdata, Hfield. unfold bind at 1. unfold ret at 1.
  cbn [from_option id]. rewrite Htruthy. cbn [negb].
  unfold_monad. now rewrite Hget, Hdelete, Hemail, Hsave1, Hsave2.
Qed.

(** Alice is deactivated: no link left, the retired email and the
    unusable password in her row. *)
Lemma deactivate_logout_success_example :
  DeactivateLogoutView.post
    (Store.request_of Store.staff [] [("user", VStr "alice")]) Store.w0
  = (Ok (Response VNone 204),
     mkWorld
       (Store.mkdb
          [User.mk 1 "alice" "retired__alice@example.com" "!" false;
           Store.bob; Store.staff]
          (Store.goals Store.d0) (Store.org_tags Store.d0) [])
       (Store.mkext [] true)).
Proof.
  apply (deactivate_logout_success
           (Store.request_of Store.staff [] [("user", VStr "alice")])
           Store.w0
           (mkWorld (Store.mkdb (Store.users Store.d0) (Store.goals Store.d0)
                       (Store.org_tags Store.d0) [])
              (Store.mkext [] true))
           (mkWorld
              (Store.mkdb
                 [User.mk 1 "alice" "retired__alice@example.com" "pbkdf2$a" false;
                  Store.bob; Store.staff]
                 (Store.goals Store.d0) (Store.org_tags Store.d0) [])
              (Store.mkext [] true))
           _ (list_to_map [("user", VStr "alice")])
           (VStr "alice") Store.alice "retired__alice@example.com").
  - reflexivity.
  - reflexivity.
  - reflexivity.
  - reflexivity.
  - reflexivity.
  - reflexivity.
  - reflexivity.
  - reflexivity.
Defined.

(** ** Retirement: mailing opt-out *)

(** X15: a retire-mailings request whose body, an object, has no
    [retired_username] raises [KeyError] out of the handler before
    anything is looked up or written. *)
Theorem retire_mailings_missing_field_raises
    {DB Ext : Type} `{!Collaborators DB Ext}
    (request : Request.t) (username : string) (w : World DB Ext)
    (d : gmap string value) :
  Request.data request = Dict d ->
  d !! "retired_username" = None ->
  AccountRetireMailingsView.post request username w
  = (Raise (Exn KeyError "'retired_username'"), w).
Proof.
  intros Hdata Hmissing. unfold AccountRetireMailingsView.post, data_getitem, getitem.
  rewrite Hdata, Hmissing. reflexivity.
Qed.

(** A body with another field only. *)
Lemma retire_mailings_missing_field_example :
  AccountRetireMailingsView.post
    (Store.request_of Store.staff [] [("username", VStr "alice")]) "alice" Store.w0
  = (Raise (Exn KeyError "'retired_username'"), Store.w0).
Proof.
  apply (retire_mailings_missing_field_raises
           (Store.request_of Store.staff [] [("username", VStr "alice")]) "alice"
           Store.w0 (list_to_map [("username", VStr "alice")])).
  - reflexivity.
  - reflexivity.
Defined.

(** A loop over two lists one after the other. *)
Lemma for_each_app {DB Ext A : Type} (xs ys : list A)
    (body : A -> M DB Ext unit) (w : World DB Ext) :
  for_each (xs ++ ys) body w
  = match for_each xs body w with
    | (Ok _, w1) => for_each ys body w1
    | (Raise e, w1) => (Raise e, w1)
    end.
Proof.
  revert w. induction xs as [|x xs IH]; intros w; [reflexivity|].
  cbn [for_each app]. unfold bind.
  destruct (body x w) as [[[]|e] w1]; [apply IH | reflexivity].
Qed.

(** X16: the opt-outs stop at the first one that raises: the tags
    after it are not touched, the notification is not sent, and the
    transaction raises that exception in the world that opt-out left. *)
Theorem retire_transaction_stops_at_first_failure
    {DB Ext : Type} `{!Collaborators DB Ext}
    (user : User.t) (w w1 w2 : World DB Ext)
    (done rest : list UserOrgTag.t) (preference : UserOrgTag.t) (e : exn) :
  UserOrgTag_objects_filter user "email-optin" (db w)
  = Ok (done ++ preference :: rest) ->
  for_each done
    (fun preference => update_email_opt_in user (UserOrgTag.org preference) false) w
  = (Ok tt, w1) ->
  update_email_opt_in user (UserOrgTag.org preference) false w1 = (Raise e, w2) ->
  AccountRetireMailingsView.post_transaction user w = (Raise e, w2).
Proof.
  intros Hfilter Hdone Hfail.
  unfold AccountRetireMailingsView.post_transaction.
  unfold bind at 1. unfold query. rewrite Hfilter.
  unfold bind at 1. rewrite for_each_app, Hdone.
  cbn [for_each]. unfold bind at 1. now rewrite Hfail.
Qed.

(** The opt-out fails for alice's second org: the first tag is
    written, the second is not, nothing is sent. *)
Lemma retire_transaction_stops_example :
  @AccountRetireMailingsView.post_transaction _ _
    (Doubles.with_opt_in (Doubles.opt_in_fails_for "MITx")) Store.alice Store.w0
  = (Raise (Exn UserNotFound "no profile"),
     mkWorld
       (Store.mkdb (Store.users Store.d0) (Store.goals Store.d0)
          [UserOrgTag.mk 1 "edX" "email-optin" "False";
           UserOrgTag.mk 1 "MITx" "email-optin" "True";
           UserOrgTag.mk 2 "edX" "email-optin" "True"]
          (Store.social_auth Store.d0))
       (Store.mkext [] true)).
Proof.
  apply (@retire_transaction_stops_at_first_failure _ _
           (Doubles.with_opt_in (Doubles.opt_in_fails_for "MITx"))
           Store.alice Store.w0
           (mkWorld
              (Store.mkdb (Store.users Store.d0) (Store.goals Store.d0)
                 [UserOrgTag.mk 1 "edX" "email-optin" "False";
                  UserOrgTag.mk 1 "MITx" "email-optin" "True";
                  UserOrgTag.mk 2 "edX" "email-optin" "True"]
                 (Store.social_auth Store.d0))
              (Store.mkext [] true))
           _
           [UserOrgTag.mk 1 "edX" "email-optin" "True"] []
           (UserOrgTag.mk 1 "MITx" "email-optin" "True")).
  - reflexivity.
  - reflexivity.
  - reflexivity.
Defined.

(** ** Commas around the parameter *)

Lemma lstrip_app (c : ascii) (s t : string) :
  PyStr.lstrip c (s +:+ t)
  = match PyStr.lstrip c s with
    | EmptyString => PyStr.lstrip c t
    | String a r => String a r +:+ t
    end.
Proof.
  induction s as [|a s IH]; [reflexivity|].
  change (String a s +:+ t) with (String a (s +:+ t)). cbn [PyStr.lstrip].
  destruct (Ascii.eqb a c); [exact IH | reflexivity].
Qed.

(** X17: commas before and after the parameter change nothing of the
    parsed list, however many they are. *)
Theorem parse_usernames_ignores_outer_commas (usernames : string) (m n : nat) :
  AccountViewSet.parse_usernames
    (PyStr.run "," m +:+ usernames +:+ PyStr.run "," n)
  = AccountViewSet.parse_usernames usernames.
Proof.
  unfold AccountViewSet.parse_usernames, PyStr.strip. f_equal.
  rewrite PyStrFacts.lstrip_run, lstrip_app.
  destruct (PyStr.lstrip "," usernames) as [|a r].
  - now rewrite PyStrShape.lstrip_run_only.
  - apply PyStrFacts.rstrip_app_run.
Qed.

(** ** Deactivation and logout of an unknown user *)

(** X18: when no user has the username of the body, deactivate-logout
    answers 404 without a body (the missing field has one) and the
    world is as before. *)
Theorem deactivate_logout_unknown_user
    {DB Ext : Type} `{!Collaborators DB Ext}
    (request : Request.t) (w : World DB Ext) (d : gmap string value)
    (username : value) (e : exn) :
  Request.data request = Dict d ->
  d !! "user" = Some username ->
  truthy username = true ->
  User_objects_get username (db w) = Raise e ->
  exn_class_of e = User_DoesNotExist ->
  DeactivateLogoutView.post request w = (Ok (Response VNone 404), w).
Proof.
  intros Hdata Hfield Htruthy Hget Hclass.
  unfold DeactivateLogoutView.post, DeactivateLogoutView.post_try, data_get.
  rewrite Hdata, Hfield. unfold bind at 1. unfold ret at 1.
  cbn [from_option id]. rewrite Htruthy. cbn [negb].
  unfold_monad. now rewrite Hget, Hclass.
Qed.

(** A username nobody has. *)
Lemma deactivate_logout_unknown_user_example :
  DeactivateLogoutView.post
    (Store.request_of Store.staff [] [("user", VStr "nobody")]) Store.w0
  = (Ok (Response VNone 404), Store.w0).
Proof.
  apply (deactivate_logout_unknown_user
           (Store.request_of Store.staff [] [("user", VStr "nobody")]) Store.w0
           (list_to_map [("user", VStr "nobody")])
           (VStr "nobody") Store.does_not_exist).
  - reflexivity.
  - reflexivity.
  - reflexivity.
  - reflexivity.
  - reflexivity.
Defined.
